(** * plugin-org: domain readiness polling and scratch-org creation tracking

    A shallow embedding of

    - [src/shared/open.ts]: the [open] object, whose [checkLightningDomain]
      polls DNS for a freshly created org's Lightning domain, and whose
      [open] decides whether to poll at all before opening the browser;
    - [src/commands/org/create/scratch-ink.tsx]: the [Status] component and
      the [OrgCreateScratch.run] command.

    Promises are modelled by their settlement ([Ok] for a resolved promise,
    [Err] for a rejected one).  Everything the code does to the outside world
    (DNS lookups, spinner calls, sleeps, renders, log lines) is recorded, in
    program order, in a list of events returned next to the result. *)

From Stdlib Require Import String Ascii List ZArith Lia Bool Arith.
Import ListNotations.

Local Open Scope string_scope.
Local Open Scope list_scope.

(** Settlement of an awaited promise. *)
Inductive result (E A : Type) : Type :=
| Ok (a : A)
| Err (e : E).
Arguments Ok {E A} a.
Arguments Err {E A} e.

(** Completion of a [try] block: it either reaches a [return] statement or
    an exception leaves it. *)
Inductive completion (E A : Type) : Type :=
| Returned (a : A)
| Thrown (e : E).
Arguments Returned {E A} a.
Arguments Thrown {E A} e.

(** [s.slice(n)] on strings. *)
Fixpoint string_drop (n : nat) (s : string) : string :=
  match n, s with
  | O, _ => s
  | S _, EmptyString => EmptyString
  | S n', String _ r => string_drop n' r
  end.

(* ================================================================== *)
(** * [src/shared/open.ts] *)
(* ================================================================== *)

Module Open.

(** Values thrown inside [open.ts]. *)
Inductive error : Type :=
| DnsError (code : string)
    (* rejection of [dns.lookup] *)
| TypeError (what : string)
    (* [url.match(...)[1]] when [match] returned [null] *)
| SfdxError (message name : string) (actions : list string)
    (* [new SfdxError(message, name, actions)] *)
| ExternalError (what : string).
    (* rejection of [org.refreshAuth] or of the browser launcher *)

(** Observable effects, in the order the code performs them. *)
Inductive event : Type :=
| EvDns (domain : string)                       (* [open.checkDns(domain)] *)
| EvDebugFound (ip domain : string)             (* [logger.debug] on success *)
| EvDebugNotFound (domain : string) (retryCount : Z)
                                                (* [logger.debug] on exhaustion *)
| EvStartSpinner (msg : string)                 (* [ux.startSpinner(msg)] *)
| EvStopSpinner                                 (* [ux.stopSpinner()] *)
| EvDelay (seconds : Z)                         (* [open.delay()] *)
| EvOpenBrowser (url : string).                 (* [open.openBrowserWithUrl(url)] *)

(** What [open.ts] reads from its surroundings.  [lookup k d] is the outcome
    of the [k]-th call of [dns.lookup] (counting from 0) when it is made on
    domain [d]; [getDomainRetries] is the value of
    [toNumber(env.getString('SFDX_DOMAIN_RETRY', '240'))] when that number
    is an integer.  A budget that is no integer is outside this model:
    with a fraction the last attempt is the first one above the budget, and
    with NaN or Infinity the test [retryCount >= budget] never holds, so
    that a session whose lookups keep failing does not end.  Everything
    stated about [Env] below is therefore a statement about integer
    budgets.  [isInternalUrl] and [isSFDXContainerMode] come from
    [core/srcDevUtil]; [opn] is the browser launcher ([None]: it resolved);
    [getMessage] is the [open] message bundle. *)
Record Env : Type := {
  lookup : nat -> string -> result error string;
  getDomainRetries : Z;
  isInternalUrl : string -> bool;
  isSFDXContainerMode : bool;
  opn : string -> option error;
  getMessage : string -> string
}.

Record RetVal : Type := {
  url : string;
  orgId : string;
  username : string
}.

(** A computation started after [k] DNS lookups yields a settlement, the
    events it performed and the new number of lookups; [None] is reserved
    for a recursion that ran out of fuel. *)
Definition outcome (A : Type) : Type := option (A * list event * nat).

(** [open.checkLightningDomain(myDomain, ux, retryCount)].  The recursion of
    the source is on [++retryCount]; [fuel] bounds its depth. *)
Fixpoint checkLightningDomain_fuel (fuel : nat) (E : Env) (myDomain : string)
    (retryCount : Z) (k : nat) : outcome (result error unit) :=
  match fuel with
  | O => None
  | S fuel' =>
    let domain := (myDomain ++ ".lightning.force.com")%string in
    match lookup E k domain with
    | Ok ip =>
        Some (Ok tt,
              EvDns domain :: EvDebugFound ip domain ::
                (if (0 <? retryCount)%Z then [EvStopSpinner] else []),
              S k)
    | Err err =>
        if (getDomainRetries E <=? retryCount)%Z then
          Some (Err err,
                [EvDns domain; EvDebugNotFound domain retryCount; EvStopSpinner],
                S k)
        else
          let first :=
            if (retryCount =? 0)%Z
            then [EvStartSpinner (getMessage E "openCommandDomainWaiting")]
            else [] in
          match checkLightningDomain_fuel fuel' E myDomain (retryCount + 1)%Z (S k) with
          | None => None
          | Some (r, tr, k') => Some (r, EvDns domain :: first ++ EvDelay 1 :: tr, k')
          end
    end
  end.

(** Depth that the recursion cannot exceed: attempts [retryCount] to
    [getDomainRetries]. *)
Definition enough_fuel (E : Env) (retryCount : Z) : nat :=
  S (Z.to_nat (getDomainRetries E - retryCount)).

Definition checkLightningDomain (E : Env) (myDomain : string) (retryCount : Z)
    (k : nat) : outcome (result error unit) :=
  checkLightningDomain_fuel (enough_fuel E retryCount) E myDomain retryCount k.

(** The regular expression of [open.open] is "http", an optional "s",
    "://", then a capture group taking the longest run of characters other
    than a dot.  [matchHere s] is that group when the pattern matches at the
    very start of [s]. *)
Fixpoint takeUntilDot (s : string) : string :=
  match s with
  | EmptyString => EmptyString
  | String c r => if Ascii.eqb c "."%char then EmptyString else String c (takeUntilDot r)
  end.

Definition matchHere (s : string) : option string :=
  if String.prefix "https://" s then Some (takeUntilDot (string_drop 8 s))
  else if String.prefix "http://" s then Some (takeUntilDot (string_drop 7 s))
  else None.

(** [url.match(re)]: the leftmost match; [Some d] stands for a match array
    whose element 1 is [d], [None] for [null]. *)
Fixpoint urlMatch (s : string) : option string :=
  match matchHere s with
  | Some d => Some d
  | None =>
      match s with
      | EmptyString => None
      | String _ r => urlMatch r
      end
  end.

(** The closure [act] of [open.open]. *)
Definition act (E : Env) (urlOnly : bool) (retVal : RetVal) (k : nat)
  : outcome (result error RetVal) :=
  if negb urlOnly && negb (isSFDXContainerMode E) then
    match opn E (url retVal) with
    | None => Some (Ok retVal, [EvOpenBrowser (url retVal)], k)
    | Some e => Some (Err e, [EvOpenBrowser (url retVal)], k)
    end
  else Some (Ok retVal, [], k).

(** Body of the inner [try] of [open.open]: it either reaches
    [return act()] or throws. *)
Definition open_inner_body (E : Env) (u : string) (k : nat)
  : outcome (completion error unit) :=
  match urlMatch u with
  | None => Some (Thrown (TypeError "Cannot read properties of null"), [], k)
  | Some myDomain =>
      match checkLightningDomain E myDomain 0 k with
      | None => None
      | Some (Ok _, tr, k') => Some (Returned tt, tr, k')
      | Some (Err err, tr, k') => Some (Thrown err, tr, k')
      end
  end.

Definition timeoutError (E : Env) : error :=
  SfdxError (getMessage E "openCommandDomainTimeoutError")
            "openCommandDomainTimeoutError"
            [getMessage E "openCommandDomainTimeoutAction"].

(** The inner [try { ... } catch (err) { throw new SfdxError(...) }]. *)
Definition open_inner (E : Env) (u : string) (k : nat)
  : outcome (completion error unit) :=
  match open_inner_body E u k with
  | None => None
  | Some (Returned tt, tr, k') => Some (Returned tt, tr, k')
  | Some (Thrown _, tr, k') => Some (Thrown (timeoutError E), tr, k')
  end.

(** Sequencing of a prefix of events before a computation. *)
Definition after {A : Type} (tr : list event) (m : outcome A) : outcome A :=
  match m with
  | None => None
  | Some (a, tr', k) => Some (a, tr ++ tr', k)
  end.

(** [open.open(org, ux, path, isSetup, urlOnly)].  [built] is the settlement
    of [open.buildUrl(org, path, isSetup)]; [oid] and [user] are
    [org.getOrgId()] and [org.getUsername()].  The promise of [return act()]
    inside the inner [try] is not awaited there, so its rejection passes
    through both handlers; the outer [catch] handles whatever the inner
    [try]/[catch] throws by calling [act()]. *)
Definition open (E : Env) (built : result error string) (oid user : string)
    (urlOnly : bool) (k : nat) : outcome (result error RetVal) :=
  match built with
  | Err e => Some (Err e, [], k)
  | Ok u =>
      let retVal := {| url := u; orgId := oid; username := user |} in
      if (getDomainRetries E =? 0)%Z || isInternalUrl E u then
        act E urlOnly retVal k
      else
        match open_inner E u k with
        | None => None
        | Some (Returned tt, tr, k') => after tr (act E urlOnly retVal k')
        | Some (Thrown _, tr, k') => after tr (act E urlOnly retVal k')
        end
  end.

(** Counting in traces. *)
Definition is_dns (e : event) : bool :=
  match e with EvDns _ => true | _ => false end.
Definition is_start (e : event) : bool :=
  match e with EvStartSpinner _ => true | _ => false end.
Definition is_stop (e : event) : bool :=
  match e with EvStopSpinner => true | _ => false end.
Definition is_delay (e : event) : bool :=
  match e with EvDelay _ => true | _ => false end.

Definition count (p : event -> bool) (tr : list event) : nat :=
  List.length (filter p tr).

(** ** Building the URL *)

(** lodash [trimEnd(s, '/')]: [s] without its trailing slashes. *)
Fixpoint trimEndSlash (s : string) : string :=
  match s with
  | EmptyString => EmptyString
  | String c r =>
      match trimEndSlash r with
      | EmptyString =>
          if Ascii.eqb c "/"%char then EmptyString else String c EmptyString
      | String c' r' => String c (String c' r')
      end
  end.

(** What [buildFrontdoorUrl] and [open.open] read from an [Org]:
    [refreshAuth] is [None] when [org.refreshAuth()] resolves;
    [accessToken] is [conn.accessToken]; [instanceUrl] is
    [asString(org.getField(Org.Fields.INSTANCE_URL))], so [None] when the
    field is not a string. *)
Record Org : Type := {
  refreshAuth : option error;
  accessToken : option string;
  instanceUrl : option string;
  getOrgId : string;
  getUsername : string
}.

(** A value interpolated in a template literal. *)
Definition interpolate (v : option string) : string :=
  match v with
  | Some s => s
  | None => "undefined"
  end.

(** [open.buildFrontdoorUrl(org)]; lodash turns an undefined string into
    the empty one. *)
Definition buildFrontdoorUrl (org : Org) : result error string :=
  match refreshAuth org with
  | Some e => Err e
  | None =>
      Ok (trimEndSlash (match instanceUrl org with
                        | Some s => s
                        | None => EmptyString
                        end)
          ++ "/secur/frontdoor.jsp?sid=" ++ interpolate (accessToken org))%string
  end.

Definition SETUP : string := "/setup/forcecomHomepage.apexp".

(** What [buildUrl] reads besides the org: the environment variable
    [FORCE_OPEN_URL], and the two built-in functions, each of which may
    throw a [URIError]. *)
Record UrlEnv : Type := {
  FORCE_OPEN_URL : option string;
  decodeURIComponent : string -> result error string;
  encodeURIComponent : string -> result error string
}.

(** Truthiness of an optional string: neither [undefined] nor empty. *)
Definition truthy (p : option string) : bool :=
  match p with
  | Some s => negb (String.eqb s EmptyString)
  | None => false
  end.

(** [open.buildUrl(org, path, isSetup)]. *)
Definition buildUrl (U : UrlEnv) (org : Org) (path : option string)
    (isSetup : bool) : result error string :=
  match buildFrontdoorUrl org with
  | Err e => Err e
  | Ok u =>
      let path' :=
        if truthy path then path
        else if isSetup then Some SETUP
        else FORCE_OPEN_URL U in
      if truthy path' then
        match path' with
        | None => Ok u
        | Some p =>
            match decodeURIComponent U p with
            | Err e => Err e
            | Ok decoded =>
                match encodeURIComponent U decoded with
                | Err e => Err e
                | Ok cleanPath => Ok (u ++ "&retURL=" ++ cleanPath)%string
                end
            end
        end
      else Ok u
  end.

(** [open.open(org, ux, path, isSetup, urlOnly)] from its first line on. *)
Definition openOrg (E : Env) (U : UrlEnv) (org : Org) (path : option string)
    (isSetup urlOnly : bool) (k : nat) : outcome (result error RetVal) :=
  open E (buildUrl U org path isSetup) (getOrgId org) (getUsername org) urlOnly k.

Definition is_browser (e : event) : bool :=
  match e with EvOpenBrowser _ => true | _ => false end.

End Open.
(* ================================================================== *)
(** * [src/commands/org/create/scratch-ink.tsx] *)
(* ================================================================== *)

Module ScratchInk.

(** The part of [ScratchOrgInfo] that the command reads. *)
Record ScratchOrgInfo : Type := {
  Id : option string;
  ScratchOrg : option string;
  SignupUsername : option string
}.

Record ScratchOrgLifecycleEvent : Type := {
  stage : string;
  scratchOrgInfo : option ScratchOrgInfo
}.

(** Values thrown in [run].  [SfError message name data] is an instance of
    [SfError]; its [data] is [None] when [error.data] is undefined and
    [Some i] when it is an object whose [scratchOrgInfoId] is [i].
    [OtherError] is any value that is not an [SfError]; [CLIError] is what
    [this.error(message, {code, exit})] throws. *)
Inductive jsError : Type :=
| SfError (message name : string) (data : option (option string))
| OtherError (name message : string)
| CLIError (message code : string) (exit : Z).

(** [new SfError(message)]: the name defaults to ['SfError']. *)
Definition newSfError (message : string) : jsError :=
  SfError message "SfError" None.

Record StatusProps : Type := {
  data : option ScratchOrgLifecycleEvent;
  baseUrl : string;
  error : option jsError
}.

(** One of the three lines "Request Id", "OrgId", "Username" of [Status]. *)
Inductive infoLine : Type :=
| InfoText (label : string) (args : list string)
    (* [<Text>label: {format(args)}</Text>] *)
| InfoPending (label : string) (err : option jsError)
    (* [label] followed by [<SpinnerOrError error=.../>] *)
| InfoEmpty.
    (* the value was the empty string: [''] is rendered *)

(** [(v && <Text/>) ?? <Box/>]: an undefined [v] gives the spinner, a falsy
    string stays as it is, any other string gives the text. *)
Definition infoField (label : string) (v : option string)
    (args : string -> list string) (err : option jsError) : infoLine :=
  match v with
  | None => InfoPending label err
  | Some s => if String.eqb s "" then InfoEmpty else InfoText label (args s)
  end.

(** What the callback of [scratchOrgLifecycleStages.map] returns for one
    stage. *)
Inductive stageLine : Type :=
| Current (stage : string) (err : option jsError)   (* spinner, magenta *)
| Completed (stage : string)                        (* green check mark *)
| Done (stage : string)                             (* blue *)
| Future (stage : string)                           (* dim square *)
| NoLine.                                           (* [undefined] *)

Record StatusView : Type := {
  requestId : infoLine;
  orgId : infoLine;
  username : infoLine;
  stageLines : list stageLine
}.

(** [l.indexOf(x)] with strict equality; [-1] when [x] is absent. *)
Fixpoint indexOf (x : string) (l : list string) : Z :=
  match l with
  | [] => (-1)%Z
  | y :: l' =>
      if String.eqb y x then 0%Z
      else let i := indexOf x l' in
           if (i <? 0)%Z then (-1)%Z else (i + 1)%Z
  end.

(** [l.map((x, i) => f(x, i))], the index starting at [i]. *)
Fixpoint mapi_from {A B : Type} (f : A -> nat -> B) (i : nat) (l : list A) : list B :=
  match l with
  | [] => []
  | x :: l' => f x i :: mapi_from f (S i) l'
  end.

Definition mapi {A B : Type} (f : A -> nat -> B) (l : list A) : list B :=
  mapi_from f 0 l.

Section Status.

(** [scratchOrgLifecycleStages], the ordered stage list exported by
    [@salesforce/core]. *)
Variable scratchOrgLifecycleStages : list string.

(** The arrow function given to [scratchOrgLifecycleStages.map]; [cur] is
    [props.data!.stage]. *)
Definition stageView (cur : string) (err : option jsError)
    (stage : string) (stageIndex : nat) : stageLine :=
  if String.eqb cur stage && negb (String.eqb stage "done") then
    Current stage err
  else if (Z.of_nat stageIndex <? indexOf cur scratchOrgLifecycleStages)%Z then
    Completed stage
  else if String.eqb cur stage && String.eqb stage "done" then
    Done stage
  else if negb (String.eqb stage "done") then
    Future stage
  else NoLine.

Definition infoOf (d : ScratchOrgLifecycleEvent)
    (f : ScratchOrgInfo -> option string) : option string :=
  match scratchOrgInfo d with
  | None => None
  | Some i => f i
  end.

(** The function component [Status]; [None] is the bare [return]. *)
Definition Status (props : StatusProps) : option StatusView :=
  match data props with
  | None => None
  | Some d =>
      Some {|
        requestId :=
          infoField "Request Id" (infoOf d Id)
                    (fun v => [baseUrl props; v]) (error props);
        orgId :=
          infoField "OrgId" (infoOf d ScratchOrg) (fun v => [v]) (error props);
        username :=
          infoField "Username" (infoOf d SignupUsername) (fun v => [v])
                    (error props);
        stageLines :=
          mapi (stageView (stage d) (error props)) scratchOrgLifecycleStages
      |}
  end.

(** Positions whose line is a completed stage. *)
Definition isCompleted (l : stageLine) : bool :=
  match l with Completed _ => true | _ => false end.

Fixpoint completedStages (ls : list stageLine) : list string :=
  match ls with
  | [] => []
  | Completed s :: ls' => s :: completedStages ls'
  | _ :: ls' => completedStages ls'
  end.

End Status.

(** The two rendering surfaces of [run]. *)
Inductive surface : Type :=
| AsyncInstance      (* [asyncInstance] *)
| StatusInstance.    (* [statusInstance] *)

Inductive node : Type :=
| SpinnerOrError (type label : string)
| StatusNode (props : StatusProps).

(** [messages.getMessage(key, tokens)] of the [create_scratch] bundle. *)
Record message : Type := {
  key : string;
  tokens : list (option string)
}.

Inductive uiEvent : Type :=
| Render (s : surface) (n : node)       (* [render(n)] *)
| Rerender (s : surface) (n : node)     (* [instance.rerender(n)] *)
| Clear (s : surface)                   (* [instance.clear()] *)
| Unmount (s : surface)                 (* [instance.unmount()] *)
| LifecycleOn (eventName : string)      (* [lifecycle.on(eventName, cb)] *)
| Log                                   (* [this.log()] *)
| Info (m : message)                    (* [this.info(m)] *)
| LogSuccess (m : message).             (* [this.logSuccess(m)] *)

Definition scratchOrgLifecycleEventName : string := "scratchOrgLifecycleEvent".

(** The [let] variables of [run] that its closures share. *)
Record Locals : Type := {
  asyncInstance : option surface;
  statusInstance : option surface;
  scratchOrgLifecycleData : option ScratchOrgLifecycleEvent;
  listening : bool
}.

(** The listener registered with [lifecycle.on]. *)
Definition onLifecycleEvent (url : string) (d : ScratchOrgLifecycleEvent)
    (l : Locals) : Locals * list uiEvent :=
  let l' := {| asyncInstance := asyncInstance l;
               statusInstance := statusInstance l;
               scratchOrgLifecycleData := Some d;
               listening := listening l |} in
  match statusInstance l with
  | None => (l', [])
  | Some s =>
      (l',
       Rerender s (StatusNode {| data := Some d; baseUrl := url; error := None |})
         :: (if String.eqb (stage d) "done" then [Unmount s] else []))
  end.

(** Events published on the bus, in order, while a listener is registered. *)
Fixpoint deliver (url : string) (evs : list ScratchOrgLifecycleEvent)
    (l : Locals) : Locals * list uiEvent :=
  match evs with
  | [] => (l, [])
  | d :: evs' =>
      let '(l1, tr1) := onLifecycleEvent url d l in
      let '(l2, tr2) := deliver url evs' l1 in
      (l2, tr1 ++ tr2)
  end.

Record ScratchOrgCreateResult : Type := {
  r_username : option string;
  r_scratchOrgInfo : option ScratchOrgInfo;
  r_authFields : option (option string);     (* [authFields?.orgId] *)
  r_warnings : list string
}.

Record ScratchCreateResponse : Type := {
  resp_username : option string;
  resp_scratchOrgInfo : ScratchOrgInfo;
  resp_authFields : option (option string);
  resp_warnings : list string;
  resp_orgId : option string
}.

(** One call of [scratchOrgCreate]: the lifecycle events it publishes before
    it settles, and its settlement. *)
Record CreationCall : Type := {
  emitted : list ScratchOrgLifecycleEvent;
  settled : result jsError ScratchOrgCreateResult
}.

(** [await scratchOrgCreate(...)]: the listener, if any, sees every event. *)
Definition awaitCreate (url : string) (call : CreationCall) (l : Locals)
  : Locals * list uiEvent :=
  if listening l then deliver url (emitted call) l else (l, []).

(** The [if (flags.async) ... else ...] that creates a rendering surface. *)
Definition startRendering (async : bool) (url : string) : Locals * list uiEvent :=
  if async then
    ({| asyncInstance := Some AsyncInstance; statusInstance := None;
        scratchOrgLifecycleData := None; listening := false |},
     [Render AsyncInstance
        (SpinnerOrError "dots2"
           " Requesting Scratch Org (will not wait for completion because --async)")])
  else
    ({| asyncInstance := None; statusInstance := Some StatusInstance;
        scratchOrgLifecycleData := None; listening := true |},
     [Render StatusInstance
        (StatusNode {| data := None; baseUrl := url; error := None |});
      LifecycleOn scratchOrgLifecycleEventName]).

(** The [try] block of [run] after the [await]. *)
Definition run_try (async : bool) (bin : string) (l : Locals)
    (s : result jsError ScratchOrgCreateResult)
  : completion jsError ScratchCreateResponse * list uiEvent :=
  match s with
  | Err e => (Thrown e, [])
  | Ok r =>
      match r_scratchOrgInfo r with
      | None =>
          (Thrown (newSfError "The scratch org did not return with any information"), [])
      | Some info =>
          (Returned {| resp_username := r_username r;
                       resp_scratchOrgInfo := info;
                       resp_authFields := r_authFields r;
                       resp_warnings := r_warnings r;
                       resp_orgId := match r_authFields r with
                                     | Some o => o
                                     | None => None
                                     end |},
           Log ::
           (if async then
              match asyncInstance l with
              | Some i => [Clear i; Unmount i]
              | None => []
              end ++ [Info {| key := "action.resume"; tokens := [Some bin; Id info] |}]
            else [LogSuccess {| key := "success"; tokens := [] |}]))
      end
  end.

(** The [catch (error)] block of [run]. *)
Definition run_catch (bin url : string) (l : Locals) (e : jsError)
  : result jsError ScratchCreateResponse * list uiEvent :=
  let teardown :=
    match asyncInstance l with
    | Some i => [Unmount i]
    | None => []
    end ++
    match statusInstance l with
    | Some i =>
        [Rerender i (StatusNode {| data := scratchOrgLifecycleData l;
                                   baseUrl := url; error := Some e |});
         Unmount i]
    | None => []
    end in
  match e with
  | SfError _ name d =>
      if String.eqb name "ScratchOrgInfoTimeoutError" then
        match d with
        | None =>
            (Err (OtherError "TypeError" "Cannot read properties of undefined"),
             teardown)
        | Some scratchOrgInfoId =>
            (Err (CLIError "The scratch org did not complete within your wait time"
                           "69" 69),
             teardown ++
             [Info {| key := "action.resume";
                      tokens := [Some bin; scratchOrgInfoId] |}])
        end
      else (Err e, teardown)
  | _ => (Err e, teardown)
  end.

(** [OrgCreateScratch.run()].  [async] is [flags.async]; [instanceUrl] is
    the dev hub's [INSTANCE_URL] field as a string; [request] is the
    settlement of [buildScratchOrgRequest]; [bin] is [this.config.bin]. *)
Definition run (async : bool) (instanceUrl : option string)
    (request : result jsError unit) (bin : string) (call : CreationCall)
  : result jsError ScratchCreateResponse * list uiEvent :=
  match instanceUrl with
  | None => (Err (newSfError "No instance URL found for the dev hub"), [])
  | Some url =>
      if String.eqb url "" then
        (Err (newSfError "No instance URL found for the dev hub"), [])
      else
        match request with
        | Err e => (Err e, [])
        | Ok _ =>
            let '(l0, tr0) := startRendering async url in
            let '(l1, tr1) := awaitCreate url call l0 in
            match run_try async bin l1 (settled call) with
            | (Returned resp, tr2) => (Ok resp, tr0 ++ tr1 ++ tr2)
            | (Thrown e, tr2) =>
                let '(r, tr3) := run_catch bin url l1 e in
                (r, tr0 ++ tr1 ++ tr2 ++ tr3)
            end
        end
  end.

(** Observations on a trace. *)
Definition isUnmountOf (s : surface) (e : uiEvent) : bool :=
  match e, s with
  | Unmount AsyncInstance, AsyncInstance => true
  | Unmount StatusInstance, StatusInstance => true
  | _, _ => false
  end.

Definition unmounts (s : surface) (tr : list uiEvent) : nat :=
  List.length (filter (isUnmountOf s) tr).

Definition isRenderOf (s : surface) (e : uiEvent) : bool :=
  match e, s with
  | Render AsyncInstance _, AsyncInstance => true
  | Render StatusInstance _, StatusInstance => true
  | _, _ => false
  end.

Definition created (s : surface) (tr : list uiEvent) : bool :=
  existsb (isRenderOf s) tr.

Definition isDraw (e : uiEvent) : bool :=
  match e with Render _ _ | Rerender _ _ => true | _ => false end.

Definition isRerender (e : uiEvent) : bool :=
  match e with Rerender _ _ => true | _ => false end.

Definition isSubscription (e : uiEvent) : bool :=
  match e with LifecycleOn _ => true | _ => false end.

Definition isDone (d : ScratchOrgLifecycleEvent) : bool :=
  String.eqb (stage d) "done".

Definition doneCount (evs : list ScratchOrgLifecycleEvent) : nat :=
  List.length (filter isDone evs).

Definition failed {A : Type} (r : result jsError A) : bool :=
  match r with Ok _ => false | Err _ => true end.

(** A stage list of the shape exported by [@salesforce/core], for examples. *)
Definition exampleStages : list string :=
  ["prepare request"; "send request"; "wait for org"; "available";
   "authenticate"; "deploy settings"; "done"].

(** ** The [edition] flag *)

(** [s.replace(pat, rep)] for a string pattern and a replacement without
    dollar signs: the first occurrence of [pat] is replaced. *)
Fixpoint replaceFirst (pat rep s : string) : string :=
  if String.prefix pat s then (rep ++ string_drop (String.length pat) s)%string
  else
    match s with
    | EmptyString => EmptyString
    | String c r => String c (replaceFirst pat rep r)
    end.

(** The [parse] function of the [edition] flag. *)
Definition parseEdition (value : string) : string :=
  if String.prefix "partner-" value then replaceFirst "-" " " value else value.

(** The [options] of the [edition] flag. *)
Definition editionOptions : list string :=
  ["developer"; "enterprise"; "group"; "professional";
   "partner-developer"; "partner-enterprise"; "partner-group";
   "partner-professional"].

End ScratchInk.
(* ================================================================== *)
(** * Specification vocabulary for [open.ts] *)
(* ================================================================== *)

Module OpenSpec.
Import Open.

(** The event sequence of a polling session in which every lookup fails:
    [m] more retries are allowed when the session is at [retryCount]. *)
Fixpoint failing_trace (E : Env) (domain : string) (retryCount : Z) (m : nat)
  : list event :=
  match m with
  | O => [EvDns domain; EvDebugNotFound domain retryCount; EvStopSpinner]
  | S m' =>
      EvDns domain ::
      (if (retryCount =? 0)%Z
       then [EvStartSpinner (getMessage E "openCommandDomainWaiting")]
       else []) ++
      EvDelay 1 :: failing_trace E domain (retryCount + 1)%Z m'
  end.

(** The event sequence of a polling session whose lookups fail [m] times
    from attempt [retryCount] on and then yield [ip]. *)
Fixpoint succeeding_trace (E : Env) (domain ip : string) (retryCount : Z)
    (m : nat) : list event :=
  match m with
  | O =>
      EvDns domain :: EvDebugFound ip domain ::
      (if (0 <? retryCount)%Z then [EvStopSpinner] else [])
  | S m' =>
      EvDns domain ::
      (if (retryCount =? 0)%Z
       then [EvStartSpinner (getMessage E "openCommandDomainWaiting")]
       else []) ++
      EvDelay 1 :: succeeding_trace E domain ip (retryCount + 1)%Z m'
  end.

(** The lookups and sleeps of a trace, everything else erased. *)
Definition schedule (tr : list event) : list event :=
  filter (fun e => is_dns e || is_delay e) tr.

(** [n] lookups after a first one, each preceded by a one second sleep. *)
Fixpoint spaced_attempts (domain : string) (n : nat) : list event :=
  match n with
  | O => []
  | S n' => EvDelay 1 :: EvDns domain :: spaced_attempts domain n'
  end.

Definition lightning (myDomain : string) : string :=
  (myDomain ++ ".lightning.force.com")%string.

Definition always_fails (E : Env) : Prop :=
  forall j d, exists e, lookup E j d = Err e.

(** An environment whose resolver never succeeds. *)
Definition failingEnv (retries : Z) : Env :=
  {| lookup := fun _ _ => Err (DnsError "ENOTFOUND");
     getDomainRetries := retries;
     isInternalUrl := fun _ => false;
     isSFDXContainerMode := false;
     opn := fun _ => None;
     getMessage := fun key => key |}.

(** An environment whose resolver fails on its first [n] calls. *)
Definition lateEnv (n : nat) (retries : Z) : Env :=
  {| lookup := fun j _ => if (j <? n)%nat then Err (DnsError "ENOTFOUND")
                          else Ok "10.0.0.1";
     getDomainRetries := retries;
     isInternalUrl := fun _ => false;
     isSFDXContainerMode := false;
     opn := fun _ => None;
     getMessage := fun key => key |}.

(** An environment that classifies every URL as internal. *)
Definition internalEnv (retries : Z) : Env :=
  {| lookup := fun _ _ => Err (DnsError "ENOTFOUND");
     getDomainRetries := retries;
     isInternalUrl := fun _ => true;
     isSFDXContainerMode := false;
     opn := fun _ => None;
     getMessage := fun key => key |}.

Definition sampleUrl : string :=
  "https://mydomain.my.salesforce.com/secur/frontdoor.jsp?sid=TOKEN".

(** [true] when [s] contains a dot. *)
Fixpoint hasDot (s : string) : bool :=
  match s with
  | EmptyString => false
  | String c r => Ascii.eqb c "."%char || hasDot r
  end.

(** A run of [n] slashes. *)
Fixpoint slashes (n : nat) : string :=
  match n with
  | O => EmptyString
  | S n' => String "/"%char (slashes n')
  end.

Fixpoint endsWithSlash (s : string) : bool :=
  match s with
  | EmptyString => false
  | String c EmptyString => Ascii.eqb c "/"%char
  | String _ r => endsWithSlash r
  end.

(** The domains that a trace looks up. *)
Fixpoint lookedUp (tr : list event) : list string :=
  match tr with
  | [] => []
  | EvDns d :: tr' => d :: lookedUp tr'
  | _ :: tr' => lookedUp tr'
  end.

(** Built-in functions that leave every string as it is. *)
Definition plainUrlEnv (forceOpenUrl : option string) : UrlEnv :=
  {| FORCE_OPEN_URL := forceOpenUrl;
     decodeURIComponent := fun s => Ok s;
     encodeURIComponent := fun s => Ok s |}.

Definition sampleOrg (instance : string) : Org :=
  {| refreshAuth := None;
     accessToken := Some "TOKEN";
     instanceUrl := Some instance;
     getOrgId := "00D000000000001";
     getUsername := "user@example.com" |}.

(** [U] with another value of the environment variable. *)
Definition withForceOpenUrl (U : UrlEnv) (forced : option string) : UrlEnv :=
  {| FORCE_OPEN_URL := forced;
     decodeURIComponent := decodeURIComponent U;
     encodeURIComponent := encodeURIComponent U |}.

End OpenSpec.

(* ================================================================== *)
(** * Specification vocabulary for [scratch-ink.tsx] *)
(* ================================================================== *)

Module ScratchSpec.
Import ScratchInk.

(** The nodes handed to [rerender], in order. *)
Fixpoint rerendered (tr : list uiEvent) : list node :=
  match tr with
  | [] => []
  | Rerender _ n :: tr' => n :: rerendered tr'
  | _ :: tr' => rerendered tr'
  end.

(** The frame the listener asks for when it sees the event [d]. *)
Definition frameOf (url : string) (d : ScratchOrgLifecycleEvent) : StatusProps :=
  {| data := Some d; baseUrl := url; error := None |}.

(** The indicator rendered under [--async]. *)
Definition asyncIndicator : node :=
  SpinnerOrError "dots2"
    " Requesting Scratch Org (will not wait for completion because --async)".

(** The locals right after the synchronous branch of [run] rendered the
    status view and registered the listener. *)
Definition trackerStart (url : string) : Locals :=
  fst (startRendering false url).

(** A lifecycle event without org information. *)
Definition atStage (s : string) : ScratchOrgLifecycleEvent :=
  {| stage := s; scratchOrgInfo := None |}.

Definition sampleInfo : ScratchOrgInfo :=
  {| Id := Some "2SR000000000001"; ScratchOrg := Some "00D000000000001";
     SignupUsername := Some "test-user@example.com" |}.

(** A creation result with, and one without, org information. *)
Definition fullResult : ScratchOrgCreateResult :=
  {| r_username := Some "test-user@example.com";
     r_scratchOrgInfo := Some sampleInfo;
     r_authFields := Some (Some "00D000000000001");
     r_warnings := [] |}.

Definition emptyResult : ScratchOrgCreateResult :=
  {| r_username := None; r_scratchOrgInfo := None;
     r_authFields := None; r_warnings := [] |}.

Definition hub : string := "https://hub.my.salesforce.com".

(** The error of a creation call that ran out of its wait time. *)
Definition timeoutOf (id : string) : jsError :=
  SfError "The scratch org did not complete within your wait time"
          "ScratchOrgInfoTimeoutError" (Some (Some id)).

(** The test of the [catch] block: an [SfError] named
    [ScratchOrgInfoTimeoutError]. *)
Definition isCreationTimeout (e : jsError) : bool :=
  match e with
  | SfError _ name _ => String.eqb name "ScratchOrgInfoTimeoutError"
  | _ => false
  end.

(** The most recent of the events [evs], or [init] when there is none. *)
Definition lastSeen (evs : list ScratchOrgLifecycleEvent)
    (init : option ScratchOrgLifecycleEvent) : option ScratchOrgLifecycleEvent :=
  fold_left (fun _ d => Some d) evs init.

Definition isInfo (e : uiEvent) : bool :=
  match e with Info _ => true | _ => false end.

(** The messages that [run] prints with [this.info] or [this.logSuccess]. *)
Definition isMessage (e : uiEvent) : bool :=
  match e with Info _ | LogSuccess _ => true | _ => false end.

(** The error that reaches the [catch] block of [run], if any. *)
Definition caught (call : CreationCall) : option jsError :=
  match settled call with
  | Err e => Some e
  | Ok r =>
      match r_scratchOrgInfo r with
      | None => Some (newSfError "The scratch org did not return with any information")
      | Some _ => None
      end
  end.

(** The nodes handed to [render] or [rerender], in order. *)
Fixpoint drawn (tr : list uiEvent) : list node :=
  match tr with
  | [] => []
  | Render _ n :: tr' => n :: drawn tr'
  | Rerender _ n :: tr' => n :: drawn tr'
  | _ :: tr' => drawn tr'
  end.

(** [true] when a status node shows nothing under the stage list. *)
Definition showsNothing (stages : list string) (n : node) : bool :=
  match n with
  | StatusNode p =>
      match Status stages p with
      | None => true
      | Some _ => false
      end
  | SpinnerOrError _ _ => false
  end.

(** The line of a stage at position [i] when the current stage is at
    position [c] of a list without repetition. *)
Definition expectedLine (c : nat) (err : option jsError) (i : nat) (s : string)
  : stageLine :=
  if Nat.ltb i c then Completed s
  else if Nat.eqb i c then
    if String.eqb s "done" then Done s else Current s err
  else if String.eqb s "done" then NoLine else Future s.

(** [true] when no element but the last is a message. *)
Fixpoint messageLast (tr : list uiEvent) : bool :=
  match tr with
  | [] => true
  | e :: tr' =>
      match tr' with
      | [] => true
      | _ :: _ => negb (isMessage e) && messageLast tr'
      end
  end.

(** [x] occurs in [l], for the first time at position [c]. *)
Definition firstAt (x : string) (l : list string) (c : nat) : Prop :=
  nth_error l c = Some x /\ forall j, j < c -> nth_error l j <> Some x.

(** ** The rendering surfaces

    The instances returned by [render] belong to the rendering library
    (ink), which is not part of the repository.  They are read here as the
    library implements them: an instance is mounted by [render]; [rerender]
    draws the node while the instance is mounted and draws nothing once it
    is unmounted; the first [unmount] tears the instance down and every
    later one does nothing; [clear] erases the output and leaves the
    instance as it is. *)
Record viewState : Type := {
  mounted : bool;            (* the instance is live *)
  shown : list node;         (* the nodes drawn so far *)
  teardowns : nat            (* how many times it was torn down *)
}.

Definition noView : viewState :=
  {| mounted := false; shown := []; teardowns := 0 |}.

Definition sameSurface (a b : surface) : bool :=
  match a, b with
  | AsyncInstance, AsyncInstance => true
  | StatusInstance, StatusInstance => true
  | _, _ => false
  end.

(** The effect of one call on the instance [s]. *)
Definition viewStep (s : surface) (st : viewState) (e : uiEvent) : viewState :=
  match e with
  | Render i n =>
      if sameSurface s i
      then {| mounted := true; shown := shown st ++ [n]; teardowns := teardowns st |}
      else st
  | Rerender i n =>
      if sameSurface s i && mounted st
      then {| mounted := true; shown := shown st ++ [n]; teardowns := teardowns st |}
      else st
  | Unmount i =>
      if sameSurface s i && mounted st
      then {| mounted := false; shown := shown st; teardowns := S (teardowns st) |}
      else st
  | _ => st
  end.

(** The instance [s] after the calls of [tr], starting from [st]. *)
Definition view (s : surface) (tr : list uiEvent) (st : viewState) : viewState :=
  fold_left (viewStep s) tr st.

(** The creation call of [@salesforce/core] publishes the [done] event
    before it resolves with the org information. *)
Definition doneBeforeSuccess (call : CreationCall) : bool :=
  match settled call with
  | Ok r =>
      match r_scratchOrgInfo r with
      | Some _ => Nat.leb 1 (doneCount (emitted call))
      | None => true
      end
  | Err _ => true
  end.

End ScratchSpec.
(* ================================================================== *)
(** * Properties of the domain readiness poller and of [open.open] *)
(* ================================================================== *)

Module OpenProofs.
Import Open OpenSpec.

Example urlMatch_sample : urlMatch sampleUrl = Some "mydomain".
Proof. reflexivity. Qed.

Example urlMatch_no_scheme : urlMatch "mydomain.my.salesforce.com" = None.
Proof. reflexivity. Qed.

(** ** The recursion always ends *)

Lemma checkLightningDomain_fuel_total (E : Env) (myDomain : string) :
  forall fuel retryCount k,
    (Z.to_nat (getDomainRetries E - retryCount) < fuel)%nat ->
    exists r, checkLightningDomain_fuel fuel E myDomain retryCount k = Some r.
Proof.
  induction fuel as [|fuel IH]; intros retryCount k Hlt; [lia|].
  cbn [checkLightningDomain_fuel].
  destruct (lookup E k _) as [ip|err]; [eauto|].
  destruct (getDomainRetries E <=? retryCount)%Z eqn:Hle; [eauto|].
  apply Z.leb_gt in Hle.
  destruct (IH (retryCount + 1)%Z (S k)) as [[[r tr] k'] Hr]; [lia|].
  rewrite Hr. eauto.
Qed.


(** More fuel never changes a result. *)
Lemma checkLightningDomain_fuel_mono (E : Env) (myDomain : string) :
  forall fuel fuel' retryCount k r,
    (fuel <= fuel')%nat ->
    checkLightningDomain_fuel fuel E myDomain retryCount k = Some r ->
    checkLightningDomain_fuel fuel' E myDomain retryCount k = Some r.
Proof.
  induction fuel as [|fuel IH]; intros fuel' retryCount k r Hle H; [discriminate|].
  destruct fuel' as [|fuel']; [lia|].
  cbn [checkLightningDomain_fuel] in *.
  destruct (lookup E k _) as [ip|err]; [exact H|].
  destruct (getDomainRetries E <=? retryCount)%Z; [exact H|].
  destruct (checkLightningDomain_fuel fuel E myDomain (retryCount + 1)%Z (S k))
    as [[[r0 tr0] k0]|] eqn:Hrec; [|discriminate].
  rewrite (IH fuel' _ _ _ ltac:(lia) Hrec). exact H.
Qed.

(** ** A resolver that always fails *)

Lemma failing_session (E : Env) (myDomain : string) (Hfail : always_fails E) :
  forall m retryCount k,
    getDomainRetries E = (retryCount + Z.of_nat m)%Z ->
    exists err,
      lookup E (k + m) (lightning myDomain) = Err err /\
      checkLightningDomain_fuel (S m) E myDomain retryCount k =
        Some (Err err, failing_trace E (lightning myDomain) retryCount m, S (k + m)).
Proof.
  induction m as [|m IH]; intros retryCount k HN.
  - destruct (Hfail k (lightning myDomain)) as [err Herr].
    exists err. rewrite Nat.add_0_r. split; [exact Herr|].
    cbn [checkLightningDomain_fuel]. fold (lightning myDomain). rewrite Herr.
    replace (getDomainRetries E <=? retryCount)%Z with true
      by (symmetry; apply Z.leb_le; lia).
    reflexivity.
  - destruct (IH (retryCount + 1)%Z (S k)) as [err [Hlast Hrun]]; [lia|].
    exists err. replace (k + S m)%nat with (S k + m)%nat by lia.
    split; [exact Hlast|].
    destruct (Hfail k (lightning myDomain)) as [err0 Herr0].
    remember (S m) as fuel eqn:Hfuel.
    cbn [checkLightningDomain_fuel]. fold (lightning myDomain). rewrite Herr0.
    replace (getDomainRetries E <=? retryCount)%Z with false
      by (symmetry; apply Z.leb_gt; lia).
    rewrite Hrun. subst fuel. reflexivity.
Qed.

Lemma count_dns_failing_trace (E : Env) (d : string) :
  forall m rc, count is_dns (failing_trace E d rc m) = S m.
Proof.
  induction m as [|m IH]; intros rc; [reflexivity|].
  specialize (IH (rc + 1)%Z). unfold count in *.
  cbn [failing_trace]. destruct (rc =? 0)%Z; cbn; rewrite IH; reflexivity.
Qed.

Lemma count_delay_failing_trace (E : Env) (d : string) :
  forall m rc, count is_delay (failing_trace E d rc m) = m.
Proof.
  induction m as [|m IH]; intros rc; [reflexivity|].
  specialize (IH (rc + 1)%Z). unfold count in *.
  cbn [failing_trace]. destruct (rc =? 0)%Z; cbn; rewrite IH; reflexivity.
Qed.

Lemma schedule_failing_trace (E : Env) (d : string) :
  forall m rc,
    schedule (failing_trace E d rc m) = EvDns d :: spaced_attempts d m.
Proof.
  induction m as [|m IH]; intros rc; [reflexivity|].
  specialize (IH (rc + 1)%Z). unfold schedule in *.
  cbn [failing_trace]. destruct (rc =? 0)%Z; cbn; rewrite IH; reflexivity.
Qed.

Lemma last_failing_trace (E : Env) (d : string) :
  forall m rc,
    exists pre,
      failing_trace E d rc m =
        pre ++ [EvDebugNotFound d (rc + Z.of_nat m); EvStopSpinner].
Proof.
  induction m as [|m IH]; intros rc.
  - exists [EvDns d]. cbn. rewrite Z.add_0_r. reflexivity.
  - destruct (IH (rc + 1)%Z) as [pre Hpre].
    exists (EvDns d ::
            (if (rc =? 0)%Z
             then [EvStartSpinner (getMessage E "openCommandDomainWaiting")]
             else []) ++ EvDelay 1 :: pre).
    cbn [failing_trace]. rewrite Hpre.
    replace (rc + 1 + Z.of_nat m)%Z with (rc + Z.of_nat (S m))%Z by lia.
    cbn [app]. rewrite <- app_assoc. reflexivity.
Qed.

(** [act] never performs a lookup. *)
Lemma act_no_dns (E : Env) (urlOnly : bool) (rv : RetVal) (k : nat) :
  exists r tr,
    act E urlOnly rv k = Some (r, tr, k) /\ count is_dns tr = 0.
Proof.
  unfold act. destruct (negb urlOnly && negb (isSFDXContainerMode E)).
  - destruct (opn E (url rv)); eauto.
  - eauto.
Qed.

(** X2.  For every integer retry budget: once the URL is built,
    [open.open] settles exactly as a call of [act()] does, after whatever
    the polling did: the outer handler turns every exception of the inner
    [try]/[catch], the timeout error included, into that call. *)
Theorem open_always_acts (E : Env) (u oid user : string) (urlOnly : bool) (k : nat) :
  exists tr k',
    open E (Ok u) oid user urlOnly k =
      after tr (act E urlOnly {| url := u; orgId := oid; username := user |} k').
Proof.
  unfold open.
  destruct ((getDomainRetries E =? 0)%Z || isInternalUrl E u).
  - exists [], k. unfold after.
    destruct (act_no_dns E urlOnly {| url := u; orgId := oid; username := user |} k)
      as [r [tr [Hact _]]].
    rewrite Hact. reflexivity.
  - unfold open_inner, open_inner_body.
    destruct (urlMatch u) as [myDomain|].
    + destruct (checkLightningDomain_fuel_total E myDomain (enough_fuel E 0) 0 k)
        as [[[r tr] k'] Hr]; [unfold enough_fuel; lia|].
      unfold checkLightningDomain. rewrite Hr. destruct r as [[]|err]; exists tr, k'; reflexivity.
    + exists [], k. reflexivity.
Qed.

(** The inner handler does raise the timeout error once the budget is
    spent. *)
Lemma open_inner_exhausted (E : Env) (u myDomain : string) (N k : nat)
    (HN : getDomainRetries E = Z.of_nat N)
    (Hfail : always_fails E)
    (Hm : urlMatch u = Some myDomain) :
  open_inner E u k =
    Some (Thrown (timeoutError E),
          failing_trace E (lightning myDomain) 0 N, S (k + N)).
Proof.
  unfold open_inner, open_inner_body. rewrite Hm.
  destruct (failing_session E myDomain Hfail N 0%Z k) as [err [_ Hrun]]; [lia|].
  unfold checkLightningDomain, enough_fuel.
  replace (Z.to_nat (getDomainRetries E - 0)) with N by lia.
  rewrite Hrun. reflexivity.
Qed.

(** C1 (the code at an input where the budget is exhausted).  Retry budget 2, a
    resolver that fails on every call and a URL that is not internal: the
    poller makes its three attempts and fails, the inner handler of
    [open.open] throws the [openCommandDomainTimeoutError] error, and the
    outer handler catches it: [open.open] resolves with the return value
    after launching the browser, so no timeout reaches the caller. *)
Theorem open_absorbs_domain_timeout :
  let E := failingEnv 2 in
  let d := "mydomain.lightning.force.com" in
  checkLightningDomain E "mydomain" 0 0 =
    Some (Err (DnsError "ENOTFOUND"),
          [EvDns d; EvStartSpinner "openCommandDomainWaiting"; EvDelay 1;
           EvDns d; EvDelay 1;
           EvDns d; EvDebugNotFound d 2; EvStopSpinner], 3) /\
  open_inner E sampleUrl 0 =
    Some (Thrown (SfdxError "openCommandDomainTimeoutError"
                            "openCommandDomainTimeoutError"
                            ["openCommandDomainTimeoutAction"]),
          [EvDns d; EvStartSpinner "openCommandDomainWaiting"; EvDelay 1;
           EvDns d; EvDelay 1;
           EvDns d; EvDebugNotFound d 2; EvStopSpinner], 3) /\
  open E (Ok sampleUrl) "00D000000000001" "user@example.com" false 0 =
    Some (Ok {| url := sampleUrl; orgId := "00D000000000001";
                username := "user@example.com" |},
          [EvDns d; EvStartSpinner "openCommandDomainWaiting"; EvDelay 1;
           EvDns d; EvDelay 1;
           EvDns d; EvDebugNotFound d 2; EvStopSpinner;
           EvOpenBrowser sampleUrl], 3).
Proof. repeat split; reflexivity. Qed.

(** X3.  The first [m] lookups of a session fail and the next one yields
    [ip], with [m] within the retry budget: the failures are retried in
    silence and the session resolves after [m + 1] lookups, the spinner
    being started after the first failure and stopped after the success
    exactly when there was a failure. *)
Theorem failures_before_exhaustion_are_retried
    (E : Env) (myDomain ip : string) (m k : nat)
    (HN : (Z.of_nat m <= getDomainRetries E)%Z)
    (Hfail : forall j, j < m -> exists e, lookup E (k + j) (lightning myDomain) = Err e)
    (Hok : lookup E (k + m) (lightning myDomain) = Ok ip) :
  checkLightningDomain E myDomain 0 k =
    Some (Ok tt, succeeding_trace E (lightning myDomain) ip 0 m, S (k + m)) /\
  count is_dns (succeeding_trace E (lightning myDomain) ip 0 m) = S m /\
  count is_start (succeeding_trace E (lightning myDomain) ip 0 m) =
    (if Nat.eqb m 0 then 0 else 1) /\
  count is_stop (succeeding_trace E (lightning myDomain) ip 0 m) =
    (if Nat.eqb m 0 then 0 else 1).
Proof.
  assert (Hrun : forall m rc k,
             (rc + Z.of_nat m <= getDomainRetries E)%Z ->
             (forall j, j < m -> exists e, lookup E (k + j) (lightning myDomain) = Err e) ->
             lookup E (k + m) (lightning myDomain) = Ok ip ->
             checkLightningDomain_fuel (S m) E myDomain rc k =
               Some (Ok tt, succeeding_trace E (lightning myDomain) ip rc m, S (k + m))).
  { clear. induction m as [|m IH]; intros rc k HN Hfail Hok.
    - rewrite Nat.add_0_r in *. cbn [checkLightningDomain_fuel].
      fold (lightning myDomain). rewrite Hok. reflexivity.
    - destruct (Hfail 0 ltac:(lia)) as [e0 He0]. rewrite Nat.add_0_r in He0.
      remember (S m) as fuel eqn:Hfuel.
      cbn [checkLightningDomain_fuel]. fold (lightning myDomain). rewrite He0.
      replace (getDomainRetries E <=? rc)%Z with false
        by (symmetry; apply Z.leb_gt; lia).
      subst fuel. rewrite (IH (rc + 1)%Z (S k)).
      + replace (S k + m) with (k + S m) by lia. reflexivity.
      + lia.
      + intros j Hj. destruct (Hfail (S j) ltac:(lia)) as [e He].
        exists e. replace (S k + j) with (k + S j) by lia. exact He.
      + replace (S k + m) with (k + S m) by lia. exact Hok. }
  assert (Hcount : forall m rc,
             (0 <= rc)%Z ->
             count is_dns (succeeding_trace E (lightning myDomain) ip rc m) = S m /\
             count is_start (succeeding_trace E (lightning myDomain) ip rc m) =
               (if (rc =? 0)%Z then if Nat.eqb m 0 then 0 else 1 else 0) /\
             count is_stop (succeeding_trace E (lightning myDomain) ip rc m) =
               (if (0 <? rc + Z.of_nat m)%Z then 1 else 0)).
  { clear. unfold count. induction m as [|m IH]; intros rc Hrc.
    - cbn [succeeding_trace]. rewrite Z.add_0_r.
      destruct (Z.ltb_spec 0 rc); destruct (Z.eqb_spec rc 0); cbn; auto; lia.
    - destruct (IH (rc + 1)%Z ltac:(lia)) as (Hd & Hs & Hp).
      cbn [succeeding_trace].
      replace (rc + Z.of_nat (S m))%Z with (rc + 1 + Z.of_nat m)%Z by lia.
      replace (rc + 1 =? 0)%Z with false in Hs by (symmetry; apply Z.eqb_neq; lia).
      destruct (rc =? 0)%Z; cbn; rewrite Hd, Hs, Hp; auto. }
  split.
  - apply (checkLightningDomain_fuel_mono E myDomain (S m)).
    + unfold enough_fuel. lia.
    + apply Hrun; [lia | exact Hfail | exact Hok].
  - destruct (Hcount m 0%Z ltac:(lia)) as (Hd & Hs & Hp). cbn [Z.eqb] in Hs.
    split; [exact Hd|]. split; [exact Hs|]. rewrite Hp.
    destruct m; reflexivity.
Qed.

Lemma failures_before_exhaustion_are_retried_witness :
  (Z.of_nat 2 <= getDomainRetries (lateEnv 2 240))%Z /\
  checkLightningDomain (lateEnv 2 240) "mydomain" 0 0 =
    Some (Ok tt,
          [EvDns (lightning "mydomain"); EvStartSpinner "openCommandDomainWaiting";
           EvDelay 1;
           EvDns (lightning "mydomain"); EvDelay 1;
           EvDns (lightning "mydomain"); EvDebugFound "10.0.0.1" (lightning "mydomain");
           EvStopSpinner], 3).
Proof.
  split; [cbn; lia|].
  apply (failures_before_exhaustion_are_retried (lateEnv 2 240) "mydomain" "10.0.0.1" 2 0).
  - cbn; lia.
  - intros j Hj. exists (DnsError "ENOTFOUND").
    destruct j as [|[|j]]; [reflexivity | reflexivity | lia].
  - reflexivity.
Defined.

(** C2.  With a retry budget of [N] and a resolver that fails on every call,
    a polling session started at attempt 0 performs exactly [N + 1] lookups,
    consecutive lookups being separated by exactly one sleep of one second;
    it then logs that the counter reached [N], stops the spinner and fails
    with the error of the last lookup.  With a retry budget of 0,
    [open.open] performs no lookup at all and is just the call of [act()]. *)
Theorem poller_attempts_when_resolver_always_fails
    (E E0 : Env) (myDomain u oid user : string) (urlOnly : bool) (N k : nat)
    (HN : getDomainRetries E = Z.of_nat N)
    (Hfail : always_fails E)
    (H0 : getDomainRetries E0 = 0%Z) :
  (exists err tr,
      checkLightningDomain E myDomain 0 k = Some (Err err, tr, k + N + 1) /\
      lookup E (k + N) (lightning myDomain) = Err err /\
      count is_dns tr = N + 1 /\
      count is_delay tr = N /\
      schedule tr =
        EvDns (lightning myDomain) :: spaced_attempts (lightning myDomain) N /\
      exists pre,
        tr = pre ++ [EvDebugNotFound (lightning myDomain) (Z.of_nat N);
                     EvStopSpinner]) /\
  (open E0 (Ok u) oid user urlOnly k =
     act E0 urlOnly {| url := u; orgId := oid; username := user |} k /\
   exists r tr,
     open E0 (Ok u) oid user urlOnly k = Some (r, tr, k) /\
     count is_dns tr = 0).
Proof.
  split.
  - destruct (failing_session E myDomain Hfail N 0%Z k) as [err [Hlast Hrun]];
      [lia|].
    exists err, (failing_trace E (lightning myDomain) 0 N).
    split; [|split; [exact Hlast|split; [|split; [|split]]]].
    + unfold checkLightningDomain, enough_fuel.
      replace (Z.to_nat (getDomainRetries E - 0)) with N by lia.
      rewrite Hrun. do 2 f_equal. lia.
    + rewrite count_dns_failing_trace. lia.
    + apply count_delay_failing_trace.
    + apply schedule_failing_trace.
    + destruct (last_failing_trace E (lightning myDomain) N 0%Z) as [pre Hpre].
      exists pre. exact Hpre.
  - assert (Hopen : open E0 (Ok u) oid user urlOnly k =
                    act E0 urlOnly {| url := u; orgId := oid; username := user |} k).
    { unfold open. rewrite H0. reflexivity. }
    split; [exact Hopen|]. rewrite Hopen.
    destruct (act_no_dns E0 urlOnly {| url := u; orgId := oid; username := user |} k)
      as [r [tr [Hact Hc]]].
    exists r, tr. split; assumption.
Qed.

Lemma poller_attempts_when_resolver_always_fails_witness :
  getDomainRetries (failingEnv 3) = Z.of_nat 3 /\
  always_fails (failingEnv 3) /\
  getDomainRetries (failingEnv 0) = 0%Z /\
  (exists err tr,
      checkLightningDomain (failingEnv 3) "mydomain" 0 0 = Some (Err err, tr, 0 + 3 + 1) /\
      lookup (failingEnv 3) (0 + 3) (lightning "mydomain") = Err err /\
      count is_dns tr = 3 + 1 /\
      count is_delay tr = 3 /\
      schedule tr =
        EvDns (lightning "mydomain") :: spaced_attempts (lightning "mydomain") 3 /\
      exists pre,
        tr = pre ++ [EvDebugNotFound (lightning "mydomain") (Z.of_nat 3);
                     EvStopSpinner]) /\
  (open (failingEnv 0) (Ok sampleUrl) "00D" "user" false 0 =
     act (failingEnv 0) false {| url := sampleUrl; orgId := "00D"; username := "user" |} 0 /\
   exists r tr,
     open (failingEnv 0) (Ok sampleUrl) "00D" "user" false 0 = Some (r, tr, 0) /\
     count is_dns tr = 0).
Proof.
  split; [reflexivity|].
  split; [intros j d; eexists; reflexivity|].
  split; [reflexivity|].
  apply (poller_attempts_when_resolver_always_fails
           (failingEnv 3) (failingEnv 0) "mydomain" sampleUrl "00D" "user" false 3 0).
  - reflexivity.
  - intros j d; eexists; reflexivity.
  - reflexivity.
Defined.

(** C7.  The first three lookups of a session fail, the fourth succeeds and
    the retry budget is at least 3: the session succeeds after four lookups;
    the spinner is started once, right after the first failed lookup, and
    stopped once, right after the successful one. *)
Theorem spinner_once_when_fourth_attempt_succeeds
    (E : Env) (myDomain ip : string) (e0 e1 e2 : error) (k : nat)
    (HN : (3 <= getDomainRetries E)%Z)
    (H0 : lookup E k (lightning myDomain) = Err e0)
    (H1 : lookup E (k + 1) (lightning myDomain) = Err e1)
    (H2 : lookup E (k + 2) (lightning myDomain) = Err e2)
    (H3 : lookup E (k + 3) (lightning myDomain) = Ok ip) :
  let d := lightning myDomain in
  let tr := [EvDns d; EvStartSpinner (getMessage E "openCommandDomainWaiting");
             EvDelay 1;
             EvDns d; EvDelay 1;
             EvDns d; EvDelay 1;
             EvDns d; EvDebugFound ip d; EvStopSpinner] in
  checkLightningDomain E myDomain 0 k = Some (Ok tt, tr, k + 4) /\
  count is_start tr = 1 /\
  count is_stop tr = 1 /\
  count is_dns tr = 4.
Proof.
  intros d tr. split; [|repeat split].
  apply (checkLightningDomain_fuel_mono E myDomain 4).
  { unfold enough_fuel. lia. }
  replace (k + 1) with (S k) in H1 by lia.
  replace (k + 2) with (S (S k)) in H2 by lia.
  replace (k + 3) with (S (S (S k))) in H3 by lia.
  replace (k + 4) with (S (S (S (S k)))) by lia.
  cbn [checkLightningDomain_fuel]. fold (lightning myDomain).
  rewrite H0, H1, H2, H3.
  replace (getDomainRetries E <=? 0)%Z with false by (symmetry; apply Z.leb_gt; lia).
  replace (getDomainRetries E <=? 0 + 1)%Z with false by (symmetry; apply Z.leb_gt; lia).
  replace (getDomainRetries E <=? 0 + 1 + 1)%Z with false
    by (symmetry; apply Z.leb_gt; lia).
  reflexivity.
Qed.

Lemma spinner_once_when_fourth_attempt_succeeds_witness :
  (3 <= getDomainRetries (lateEnv 3 240))%Z /\
  checkLightningDomain (lateEnv 3 240) "mydomain" 0 0 =
    Some (Ok tt,
          [EvDns (lightning "mydomain"); EvStartSpinner "openCommandDomainWaiting";
           EvDelay 1;
           EvDns (lightning "mydomain"); EvDelay 1;
           EvDns (lightning "mydomain"); EvDelay 1;
           EvDns (lightning "mydomain"); EvDebugFound "10.0.0.1" (lightning "mydomain");
           EvStopSpinner], 4).
Proof.
  split; [cbn; lia|].
  apply (spinner_once_when_fourth_attempt_succeeds
           (lateEnv 3 240) "mydomain" "10.0.0.1"
           (DnsError "ENOTFOUND") (DnsError "ENOTFOUND") (DnsError "ENOTFOUND") 0);
    [cbn; lia | reflexivity | reflexivity | reflexivity | reflexivity].
Defined.

(** C8.  When the built URL is classified as internal, [open.open] is just
    the call of [act()]: it performs no lookup, whatever the retry budget
    and the resolver are. *)
Theorem internal_url_skips_resolution
    (E : Env) (u oid user : string) (urlOnly : bool) (k : nat)
    (Hint : isInternalUrl E u = true) :
  open E (Ok u) oid user urlOnly k =
    act E urlOnly {| url := u; orgId := oid; username := user |} k /\
  exists r tr,
    open E (Ok u) oid user urlOnly k = Some (r, tr, k) /\
    count is_dns tr = 0.
Proof.
  assert (Hopen : open E (Ok u) oid user urlOnly k =
                  act E urlOnly {| url := u; orgId := oid; username := user |} k).
  { unfold open. rewrite Hint, orb_true_r. reflexivity. }
  split; [exact Hopen|]. rewrite Hopen.
  destruct (act_no_dns E urlOnly {| url := u; orgId := oid; username := user |} k)
    as [r [tr [Hact Hc]]].
  exists r, tr. split; assumption.
Qed.

Lemma internal_url_skips_resolution_witness :
  isInternalUrl (internalEnv 240) sampleUrl = true /\
  open (internalEnv 240) (Ok sampleUrl) "00D" "user" false 0 =
    Some (Ok {| url := sampleUrl; orgId := "00D"; username := "user" |},
          [EvOpenBrowser sampleUrl], 0).
Proof.
  split; [reflexivity|].
  destruct (internal_url_skips_resolution
              (internalEnv 240) sampleUrl "00D" "user" false 0 eq_refl) as [H _].
  rewrite H. reflexivity.
Defined.

(** ** Strings *)

Lemma string_app_assoc (a b c : string) :
  ((a ++ b) ++ c)%string = (a ++ (b ++ c))%string.
Proof. induction a as [|x a IH]; cbn; [reflexivity|rewrite IH; reflexivity]. Qed.

Lemma string_app_nil_r (a : string) : (a ++ "")%string = a.
Proof. induction a as [|x a IH]; cbn; [reflexivity|rewrite IH; reflexivity]. Qed.

Lemma trimEndSlash_split (s : string) :
  exists n,
    s = (trimEndSlash s ++ slashes n)%string /\
    endsWithSlash (trimEndSlash s) = false.
Proof.
  induction s as [|c r [n [Hr He]]]; [exists 0; split; reflexivity|].
  cbn [trimEndSlash]. destruct (trimEndSlash r) as [|c' r'].
  - cbn in Hr. destruct (Ascii.eqb c "/") eqn:Hc.
    + apply Ascii.eqb_eq in Hc. subst c. exists (S n). cbn. rewrite <- Hr. auto.
    + exists n. cbn. rewrite <- Hr, Hc. auto.
  - exists n. split; [cbn; rewrite Hr at 1; reflexivity|exact He].
Qed.

(** Slashes before a character that is not a slash are kept. *)
Lemma trimEndSlash_keeps (p : string) (c : ascii) (r : string)
    (Hc : Ascii.eqb c "/" = false) :
  trimEndSlash (p ++ String c r) = (p ++ String c (trimEndSlash r))%string.
Proof.
  assert (H0 : trimEndSlash (String c r) = String c (trimEndSlash r)).
  { cbn [trimEndSlash]. rewrite Hc. destruct (trimEndSlash r); reflexivity. }
  induction p as [|a p IH]; [exact H0|].
  cbn [append trimEndSlash]. rewrite IH.
  destruct p; reflexivity.
Qed.

Lemma takeUntilDot_dot_free (s : string) : hasDot (takeUntilDot s) = false.
Proof.
  induction s as [|c r IH]; [reflexivity|]. cbn [takeUntilDot].
  destruct (Ascii.eqb c ".") eqn:Hc; [reflexivity|]. cbn. rewrite Hc, IH. reflexivity.
Qed.

Lemma takeUntilDot_label (d rest : string) (Hd : hasDot d = false) :
  takeUntilDot (d ++ String "." rest) = d.
Proof.
  induction d as [|c r IH]; [reflexivity|]. cbn in Hd.
  apply orb_false_iff in Hd. destruct Hd as [Hc Hr].
  cbn. rewrite Hc, (IH Hr). reflexivity.
Qed.

Lemma urlMatch_dot_free :
  forall (u d : string), urlMatch u = Some d -> hasDot d = false.
Proof.
  induction u as [|c r IH]; intros d H.
  - discriminate.
  - cbn [urlMatch] in H. unfold matchHere in H.
    destruct (String.prefix "https://" (String c r)).
    { injection H as <-. apply takeUntilDot_dot_free. }
    destruct (String.prefix "http://" (String c r)).
    { injection H as <-. apply takeUntilDot_dot_free. }
    apply IH. exact H.
Qed.

Lemma prefix_app (p s : string) : String.prefix p (p ++ s) = true.
Proof.
  induction p as [|a p IH]; [destruct s; reflexivity|].
  cbn. destruct (ascii_dec a a) as [_|Hn]; [exact IH|contradiction].
Qed.

Lemma matchHere_https (s : string) :
  matchHere ("https://" ++ s) = Some (takeUntilDot s).
Proof. unfold matchHere. rewrite prefix_app. reflexivity. Qed.

Lemma matchHere_http (s : string) :
  matchHere ("http://" ++ s) = Some (takeUntilDot s).
Proof.
  unfold matchHere. rewrite prefix_app.
  change (String.prefix "https://" ("http://" ++ s)) with false. reflexivity.
Qed.

Lemma urlMatch_here (u d : string) : matchHere u = Some d -> urlMatch u = Some d.
Proof. intros H. destruct u; cbn [urlMatch]; rewrite H; reflexivity. Qed.

(** X5.  The capture of the regular expression of [open.open] never
    contains a dot, and on a URL that starts with its scheme it is the text
    between the scheme and the first dot, whatever that text is. *)
Theorem urlMatch_first_label (d rest : string) (Hd : hasDot d = false) :
  urlMatch ("https://" ++ d ++ String "." rest) = Some d /\
  urlMatch ("http://" ++ d ++ String "." rest) = Some d /\
  forall u d', urlMatch u = Some d' -> hasDot d' = false.
Proof.
  split; [|split; [|exact urlMatch_dot_free]].
  - apply urlMatch_here. rewrite matchHere_https, (takeUntilDot_label d rest Hd).
    reflexivity.
  - apply urlMatch_here. rewrite matchHere_http, (takeUntilDot_label d rest Hd).
    reflexivity.
Qed.

Lemma urlMatch_first_label_witness :
  hasDot "localhost:6109/secur/frontdoor" = false /\
  urlMatch "https://localhost:6109/secur/frontdoor.jsp?sid=TOKEN" =
    Some "localhost:6109/secur/frontdoor".
Proof.
  split; [reflexivity|].
  exact (proj1 (urlMatch_first_label "localhost:6109/secur/frontdoor"
                  "jsp?sid=TOKEN" eq_refl)).
Defined.

(** X6.  When the token refresh succeeds, the frontdoor URL is the instance
    URL without its trailing slashes, however many there are, followed by
    the frontdoor path and the access token: base and path are joined by
    exactly one slash. *)
Theorem frontdoor_joins_with_one_slash (org : Org) (inst : string)
    (Hauth : refreshAuth org = None)
    (Hinst : instanceUrl org = Some inst) :
  exists base n,
    inst = (base ++ slashes n)%string /\
    endsWithSlash base = false /\
    buildFrontdoorUrl org =
      Ok (base ++ "/secur/frontdoor.jsp?sid=" ++ interpolate (accessToken org))%string.
Proof.
  destruct (trimEndSlash_split inst) as [n [Hs He]].
  exists (trimEndSlash inst), n. split; [exact Hs|]. split; [exact He|].
  unfold buildFrontdoorUrl. rewrite Hauth, Hinst. reflexivity.
Qed.

Lemma frontdoor_joins_with_one_slash_witness :
  refreshAuth (sampleOrg "https://mydomain.my.salesforce.com///") = None /\
  exists base n,
    "https://mydomain.my.salesforce.com///" = (base ++ slashes n)%string /\
    endsWithSlash base = false /\
    buildFrontdoorUrl (sampleOrg "https://mydomain.my.salesforce.com///") =
      Ok (base ++ "/secur/frontdoor.jsp?sid=" ++ "TOKEN")%string.
Proof.
  split; [reflexivity|].
  exact (frontdoor_joins_with_one_slash
           (sampleOrg "https://mydomain.my.salesforce.com///")
           "https://mydomain.my.salesforce.com///" eq_refl eq_refl).
Defined.

Example frontdoor_three_slashes :
  buildFrontdoorUrl (sampleOrg "https://mydomain.my.salesforce.com///") =
    Ok "https://mydomain.my.salesforce.com/secur/frontdoor.jsp?sid=TOKEN".
Proof. reflexivity. Qed.

(** ** Any resolver *)

Lemma count_cons (p : event -> bool) (e : event) (tr : list event) :
  count p (e :: tr) = (if p e then 1 else 0) + count p tr.
Proof. unfold count. cbn. destruct (p e); reflexivity. Qed.

Lemma count_app (p : event -> bool) (a b : list event) :
  count p (a ++ b) = count p a + count p b.
Proof. unfold count. rewrite filter_app, length_app. reflexivity. Qed.

Lemma lookedUp_app (a b : list event) :
  lookedUp (a ++ b) = lookedUp a ++ lookedUp b.
Proof.
  induction a as [|e a IH]; [reflexivity|].
  destruct e; cbn; rewrite ?IH; reflexivity.
Qed.

(** What every polling session looks like, whatever the resolver does. *)
Lemma session_shape (E : Env) (myDomain : string) :
  forall fuel retryCount k r tr k',
    checkLightningDomain_fuel fuel E myDomain retryCount k = Some (r, tr, k') ->
    lookedUp tr = repeat (lightning myDomain) (count is_dns tr) /\
    k' = k + count is_dns tr /\
    count is_dns tr = S (count is_delay tr) /\
    count is_dns tr <= S (Z.to_nat (getDomainRetries E - retryCount)) /\
    filter is_delay tr = repeat (EvDelay 1) (count is_delay tr) /\
    count is_browser tr = 0.
Proof.
  induction fuel as [|fuel IH]; intros rc k r tr k' H; [discriminate|].
  cbn [checkLightningDomain_fuel] in H. fold (lightning myDomain) in H.
  destruct (lookup E k (lightning myDomain)) as [ip|err].
  - injection H as <- <- <-.
    destruct (0 <? rc)%Z; cbn; repeat split; lia.
  - destruct (getDomainRetries E <=? rc)%Z eqn:Hle.
    + injection H as <- <- <-. cbn. repeat split; lia.
    + apply Z.leb_gt in Hle.
      destruct (checkLightningDomain_fuel fuel E myDomain (rc + 1)%Z (S k))
        as [[[r0 tr0] k0]|] eqn:Hrec; [|discriminate].
      injection H as <- <- <-.
      destruct (IH _ _ _ _ _ Hrec) as (Hl & Hk & Hd & Hb & Hf & Hbr).
      set (first := if (rc =? 0)%Z
                    then [EvStartSpinner (getMessage E "openCommandDomainWaiting")]
                    else []).
      assert (Hfirst : lookedUp first = [] /\ count is_dns first = 0 /\
                       count is_delay first = 0 /\ filter is_delay first = [] /\
                       count is_browser first = 0).
      { unfold first. destruct (rc =? 0)%Z; cbn; auto. }
      destruct Hfirst as (F1 & F2 & F3 & F4 & F5).
      rewrite !count_cons, !count_app, !count_cons, F2, F3, F5.
      cbn [is_dns is_delay is_browser Nat.add].
      change (EvDns (lightning myDomain) :: first ++ EvDelay 1 :: tr0)
        with ([EvDns (lightning myDomain)] ++ first ++ [EvDelay 1] ++ tr0).
      rewrite !lookedUp_app, !filter_app, F1, F4, Hl, Hf, Hbr. cbn.
      repeat split; lia.
Qed.



(** What [act] does. *)
Lemma act_spec (E : Env) (urlOnly : bool) (rv : RetVal) (k : nat) :
  act E urlOnly rv k =
    Some (if negb urlOnly && negb (isSFDXContainerMode E)
          then match opn E (url rv) with None => Ok rv | Some e => Err e end
          else Ok rv,
          if negb urlOnly && negb (isSFDXContainerMode E)
          then [EvOpenBrowser (url rv)] else [],
          k).
Proof.
  unfold act. destruct (negb urlOnly && negb (isSFDXContainerMode E));
    [destruct (opn E (url rv))|]; reflexivity.
Qed.

(** [open.open] is a polling session, or none, followed by [act()]. *)
Lemma open_decomposed (E : Env) (u oid user : string) (urlOnly : bool) (k : nat) :
  let rv := {| url := u; orgId := oid; username := user |} in
  exists polled k',
    open E (Ok u) oid user urlOnly k = after polled (act E urlOnly rv k') /\
    ((polled = [] /\ k' = k) \/
     (exists myDomain r,
         urlMatch u = Some myDomain /\
         (getDomainRetries E =? 0)%Z = false /\
         isInternalUrl E u = false /\
         checkLightningDomain E myDomain 0 k = Some (r, polled, k'))).
Proof.
  intros rv. unfold open. fold rv.
  destruct (getDomainRetries E =? 0)%Z eqn:H0; cbn [orb].
  { exists [], k. rewrite act_spec. split; [reflexivity|left; auto]. }
  destruct (isInternalUrl E u) eqn:Hi.
  { exists [], k. rewrite act_spec. split; [reflexivity|left; auto]. }
  unfold open_inner, open_inner_body.
  destruct (urlMatch u) as [myDomain|] eqn:Hm.
  - destruct (checkLightningDomain_fuel_total E myDomain (enough_fuel E 0) 0 k)
      as [[[r tr] k'] Hr]; [unfold enough_fuel; lia|].
    unfold checkLightningDomain at 1. rewrite Hr.
    exists tr, k'. split; [destruct r as [[]|err]; reflexivity|].
    right. exists myDomain, r. auto.
  - exists [], k. split; [reflexivity|left; auto].
Qed.


(** X9.  Every lookup that [open.open] makes is for one and the same
    domain: the capture of the regular expression on the URL, followed by
    [.lightning.force.com].  When the expression does not match the URL,
    no lookup is made. *)
Theorem open_looks_up_the_lightning_domain
    (E : Env) (u oid user : string) (urlOnly : bool) (k : nat) :
  exists r tr k',
    open E (Ok u) oid user urlOnly k = Some (r, tr, k') /\
    match urlMatch u with
    | Some myDomain =>
        lookedUp tr = repeat (lightning myDomain) (count is_dns tr)
    | None => lookedUp tr = [] /\ count is_dns tr = 0
    end.
Proof.
  destruct (open_decomposed E u oid user urlOnly k) as (polled & k' & Hopen & Hcase).
  cbv zeta in Hopen. rewrite act_spec in Hopen. cbn [after url] in Hopen.
  eexists _, _, k'. split; [exact Hopen|].
  rewrite lookedUp_app, count_app.
  replace (lookedUp (if negb urlOnly && negb (isSFDXContainerMode E)
                     then [EvOpenBrowser u] else [])) with (@nil string)
    by (destruct (negb urlOnly && negb (isSFDXContainerMode E)); reflexivity).
  replace (count is_dns (if negb urlOnly && negb (isSFDXContainerMode E)
                         then [EvOpenBrowser u] else [])) with 0
    by (destruct (negb urlOnly && negb (isSFDXContainerMode E)); reflexivity).
  rewrite app_nil_r, Nat.add_0_r.
  destruct Hcase as [[-> ->] | (d & r & Hm & _ & _ & Hr)].
  - destruct (urlMatch u); cbn; auto.
  - rewrite Hm. exact (proj1 (session_shape E d _ _ _ _ _ _ Hr)).
Qed.

(** X10.  For every integer retry budget: [open.open] launches the browser
    at most once, on the built URL and as the last thing it does; with
    [urlOnly], or in container mode, it never launches it and then always
    resolves with the return value.  Otherwise it settles as the launch
    does, whatever the polling did. *)
Theorem browser_is_launched_last_or_never
    (E : Env) (u oid user : string) (urlOnly : bool) (k : nat) :
  let rv := {| url := u; orgId := oid; username := user |} in
  let launch := negb urlOnly && negb (isSFDXContainerMode E) in
  exists polled k',
    count is_browser polled = 0 /\
    open E (Ok u) oid user urlOnly k =
      Some (if launch
            then match opn E u with None => Ok rv | Some e => Err e end
            else Ok rv,
            polled ++ (if launch then [EvOpenBrowser u] else []),
            k').
Proof.
  intros rv launch.
  destruct (open_decomposed E u oid user urlOnly k) as (polled & k' & Hopen & Hcase).
  cbv zeta in Hopen. rewrite act_spec in Hopen. cbn [after url] in Hopen.
  exists polled, k'. split; [|exact Hopen].
  destruct Hcase as [[-> _] | (d & r & _ & _ & _ & Hr)]; [reflexivity|].
  exact (proj2 (proj2 (proj2 (proj2 (proj2 (session_shape E d _ _ _ _ _ _ Hr)))))).
Qed.

(** ** From the org to the lookups *)

(** X11.  An explicit, non-empty [path] decides the return URL alone:
    neither [isSetup] nor [FORCE_OPEN_URL] is looked at.  An empty [path]
    counts as none.  Without a path, [isSetup] selects the setup page
    whatever [FORCE_OPEN_URL] says, and without [isSetup] the variable is
    used as the path; when that is unset or empty too, the result is the
    frontdoor URL with no [retURL] parameter. *)
Theorem buildUrl_path_precedence (U : UrlEnv) (org : Org) (p : string)
    (Hp : p <> "") :
  (forall isSetup forced,
      buildUrl (withForceOpenUrl U forced) org (Some p) isSetup =
        buildUrl U org (Some p) false) /\
  (forall isSetup, buildUrl U org (Some "") isSetup = buildUrl U org None isSetup) /\
  (forall forced,
      buildUrl (withForceOpenUrl U forced) org None true =
        buildUrl U org (Some SETUP) false) /\
  buildUrl (withForceOpenUrl U (Some p)) org None false =
    buildUrl U org (Some p) false /\
  buildUrl (withForceOpenUrl U None) org None false = buildFrontdoorUrl org /\
  buildUrl (withForceOpenUrl U (Some "")) org None false = buildFrontdoorUrl org.
Proof.
  apply String.eqb_neq in Hp.
  unfold buildUrl, withForceOpenUrl, truthy. cbn. rewrite !Hp. cbn.
  repeat split; intros; destruct (buildFrontdoorUrl org); try reflexivity;
    rewrite ?Hp; cbn; try reflexivity; destruct isSetup; reflexivity.
Qed.

Lemma buildUrl_path_precedence_witness :
  "/lightning/setup/SetupOneHome/home" <> "" /\
  buildUrl (plainUrlEnv (Some "/one/one.app"))
           (sampleOrg "https://mydomain.my.salesforce.com/")
           (Some "/lightning/setup/SetupOneHome/home") true =
    Ok ("https://mydomain.my.salesforce.com/secur/frontdoor.jsp?sid=TOKEN"
        ++ "&retURL=/lightning/setup/SetupOneHome/home")%string.
Proof.
  split; [discriminate|].
  destruct (buildUrl_path_precedence (plainUrlEnv None)
              (sampleOrg "https://mydomain.my.salesforce.com/")
              "/lightning/setup/SetupOneHome/home" ltac:(discriminate))
    as [H _].
  exact (H true (Some "/one/one.app")).
Defined.

(** The built URL starts with the trimmed instance URL. *)
Lemma buildUrl_starts_with_instance (U : UrlEnv) (org : Org)
    (path : option string) (isSetup : bool) (u : string) :
  buildUrl U org path isSetup = Ok u ->
  exists suffix,
    u = (trimEndSlash (match instanceUrl org with
                       | Some s => s
                       | None => EmptyString
                       end) ++ suffix)%string.
Proof.
  unfold buildUrl, buildFrontdoorUrl.
  destruct (refreshAuth org); [discriminate|].
  destruct (truthy (if truthy path then path
                    else if isSetup then Some SETUP else FORCE_OPEN_URL U)).
  - destruct (if truthy path then path
              else if isSetup then Some SETUP else FORCE_OPEN_URL U) as [q|].
    + destruct (decodeURIComponent U q) as [dq|]; [|discriminate].
      destruct (encodeURIComponent U dq) as [c|]; [|discriminate].
      intros H. injection H as <-. eexists.
      rewrite string_app_assoc. reflexivity.
    + intros H. injection H as <-. eexists. reflexivity.
  - intros H. injection H as <-. eexists. reflexivity.
Qed.

Lemma open_lookups (E : Env) (u myDomain oid user : string) (urlOnly : bool)
    (k : nat) (Hm : urlMatch u = Some myDomain) :
  exists r tr k',
    open E (Ok u) oid user urlOnly k = Some (r, tr, k') /\
    lookedUp tr = repeat (lightning myDomain) (count is_dns tr).
Proof.
  destruct (open_decomposed E u oid user urlOnly k) as (polled & k' & Hopen & Hcase).
  cbv zeta in Hopen. rewrite act_spec in Hopen. cbn [after url] in Hopen.
  eexists _, _, k'. split; [exact Hopen|].
  rewrite lookedUp_app, count_app.
  destruct (negb urlOnly && negb (isSFDXContainerMode E));
    cbn [lookedUp]; rewrite app_nil_r;
    (destruct Hcase as [[-> ->] | (d & r & Hm' & _ & _ & Hr)];
     [reflexivity|]);
    rewrite Hm in Hm'; injection Hm' as <-;
    destruct (session_shape E myDomain _ _ _ _ _ _ Hr) as (Hl & _);
    rewrite Hl; unfold count; cbn; rewrite Nat.add_0_r; reflexivity.
Qed.

(** X12.  For an org whose instance URL is a scheme, a first label without
    a dot, a dot and anything else, every lookup that [open.open] makes is
    for that first label followed by [.lightning.force.com]: the path, the
    access token and the trailing slashes of the instance URL have no
    influence on the domain that is polled. *)
Theorem polled_domain_comes_from_instance_url
    (E : Env) (U : UrlEnv) (org : Org) (scheme d rest : string)
    (path : option string) (isSetup urlOnly : bool) (k : nat)
    (Hscheme : scheme = "https://" \/ scheme = "http://")
    (Hd : hasDot d = false)
    (Hinst : instanceUrl org = Some (scheme ++ d ++ String "." rest)%string) :
  exists r tr k',
    openOrg E U org path isSetup urlOnly k = Some (r, tr, k') /\
    lookedUp tr = repeat (lightning d) (count is_dns tr).
Proof.
  unfold openOrg.
  destruct (buildUrl U org path isSetup) as [u|e] eqn:Hb.
  - apply open_lookups.
    destruct (buildUrl_starts_with_instance U org path isSetup u Hb) as [suffix ->].
    rewrite Hinst, <- string_app_assoc.
    rewrite trimEndSlash_keeps by reflexivity.
    rewrite !string_app_assoc. cbn [append].
    apply urlMatch_here.
    destruct Hscheme as [-> | ->].
    + rewrite matchHere_https, (takeUntilDot_label d _ Hd). reflexivity.
    + rewrite matchHere_http, (takeUntilDot_label d _ Hd). reflexivity.
  - exists (Err e), [], k. split; reflexivity.
Qed.

Lemma polled_domain_comes_from_instance_url_witness :
  ("https://" = "https://" \/ "https://" = "http://") /\
  hasDot "mydomain" = false /\
  exists r tr k',
    openOrg (failingEnv 1) (plainUrlEnv None)
            (sampleOrg "https://mydomain.my.salesforce.com//")
            (Some "/lightning/page/home") false false 0 = Some (r, tr, k') /\
    lookedUp tr = repeat (lightning "mydomain") (count is_dns tr).
Proof.
  split; [left; reflexivity|]. split; [reflexivity|].
  exact (polled_domain_comes_from_instance_url (failingEnv 1) (plainUrlEnv None)
           (sampleOrg "https://mydomain.my.salesforce.com//")
           "https://" "mydomain" "my.salesforce.com//"
           (Some "/lightning/page/home") false false 0
           (or_introl eq_refl) eq_refl eq_refl).
Defined.

Example openOrg_polls_first_label :
  openOrg (failingEnv 1) (plainUrlEnv None)
          (sampleOrg "https://mydomain.my.salesforce.com//")
          (Some "/lightning/page/home") false true 0 =
    Some (Ok {| url := "https://mydomain.my.salesforce.com/secur/frontdoor.jsp?sid=TOKEN&retURL=/lightning/page/home";
                orgId := "00D000000000001"; username := "user@example.com" |},
          [EvDns "mydomain.lightning.force.com";
           EvStartSpinner "openCommandDomainWaiting"; EvDelay 1;
           EvDns "mydomain.lightning.force.com";
           EvDebugNotFound "mydomain.lightning.force.com" 1; EvStopSpinner], 2).
Proof. reflexivity. Qed.

End OpenProofs.

(* ================================================================== *)
(** * Properties of [Status] and of [OrgCreateScratch.run] *)
(* ================================================================== *)

Module ScratchProofs.
Import ScratchInk ScratchSpec.

(** ** Stage classification *)

(** [indexOf] is the first position: a position that holds [x] is not
    before it. *)
Lemma indexOf_first (x : string) :
  forall (l : list string) (i : nat),
    nth_error l i = Some x -> (0 <= indexOf x l <= Z.of_nat i)%Z.
Proof.
  induction l as [|y l IH]; intros i Hi.
  - destruct i; discriminate.
  - cbn [indexOf]. destruct (String.eqb y x) eqn:Hyx; [lia|].
    destruct i as [|i]; cbn in Hi.
    + injection Hi as ->. rewrite String.eqb_refl in Hyx. discriminate.
    + specialize (IH i Hi).
      destruct (indexOf x l <? 0)%Z eqn:H.
      * apply Z.ltb_lt in H. lia.
      * lia.
Qed.

Lemma indexOf_lower (x : string) (l : list string) : (-1 <= indexOf x l)%Z.
Proof.
  induction l as [|y l IH]; cbn [indexOf]; [lia|].
  destruct (String.eqb y x); [lia|].
  destruct (indexOf x l <? 0)%Z eqn:H; [lia|].
  apply Z.ltb_ge in H. lia.
Qed.

Lemma indexOf_found (x : string) :
  forall (l : list string),
    (0 <= indexOf x l)%Z -> nth_error l (Z.to_nat (indexOf x l)) = Some x.
Proof.
  induction l as [|y l IH]; cbn [indexOf]; [lia|].
  destruct (String.eqb y x) eqn:Hyx.
  - intros _. apply String.eqb_eq in Hyx. subst y. reflexivity.
  - destruct (indexOf x l <? 0)%Z eqn:H; [lia|]. intros _.
    apply Z.ltb_ge in H.
    replace (Z.to_nat (indexOf x l + 1)) with (S (Z.to_nat (indexOf x l))) by lia.
    cbn. apply IH. exact H.
Qed.

Lemma indexOf_NoDup (x : string) (l : list string) (c : nat) :
  NoDup l -> nth_error l c = Some x -> indexOf x l = Z.of_nat c.
Proof.
  intros Hnd Hc.
  pose proof (indexOf_first x l c Hc) as [Hlo Hhi].
  pose proof (indexOf_found x l Hlo) as Hf.
  assert (Hlt : Z.to_nat (indexOf x l) < List.length l).
  { apply nth_error_Some. rewrite Hf. discriminate. }
  pose proof (proj1 (NoDup_nth_error l) Hnd _ c Hlt
                (eq_trans Hf (eq_sym Hc))) as Heq.
  lia.
Qed.

Lemma indexOf_absent (x : string) (l : list string) :
  (forall i, nth_error l i <> Some x) -> indexOf x l = (-1)%Z.
Proof.
  intros Habs. pose proof (indexOf_lower x l).
  destruct (Z.ltb_spec (indexOf x l) 0) as [|Hge]; [lia|].
  exfalso. exact (Habs _ (indexOf_found x l Hge)).
Qed.

(** A line is a completed one exactly in the second branch of the arrow
    function. *)
Lemma stageView_completed (stages : list string) (cur : string)
    (err : option jsError) (s : string) (i : nat)
    (Hi : nth_error stages i = Some s) :
  stageView stages cur err s i =
    if (Z.of_nat i <? indexOf cur stages)%Z then Completed s
    else stageView stages cur err s i.
Proof.
  destruct (Z.of_nat i <? indexOf cur stages)%Z eqn:Hlt; [|reflexivity].
  apply Z.ltb_lt in Hlt. unfold stageView.
  destruct (String.eqb cur s) eqn:Hcs.
  - apply String.eqb_eq in Hcs. subst s.
    pose proof (indexOf_first cur stages i Hi). lia.
  - cbn [andb]. replace (Z.of_nat i <? indexOf cur stages)%Z with true
      by (symmetry; apply Z.ltb_lt; exact Hlt).
    reflexivity.
Qed.

Lemma stageView_not_completed (stages : list string) (cur : string)
    (err : option jsError) (s : string) (i : nat)
    (Hge : (indexOf cur stages <= Z.of_nat i)%Z) :
  isCompleted (stageView stages cur err s i) = false.
Proof.
  unfold stageView.
  replace (Z.of_nat i <? indexOf cur stages)%Z with false
    by (symmetry; apply Z.ltb_ge; exact Hge).
  destruct (String.eqb cur s && negb (String.eqb s "done")); [reflexivity|].
  destruct (String.eqb cur s && String.eqb s "done"); [reflexivity|].
  destruct (negb (String.eqb s "done")); reflexivity.
Qed.

Lemma completedStages_skip (l : stageLine) (ls : list stageLine) :
  isCompleted l = false -> completedStages (l :: ls) = completedStages ls.
Proof. destruct l; cbn; intros H; [reflexivity|discriminate|reflexivity..]. Qed.

Lemma nth_error_mapi_from {A B : Type} (f : A -> nat -> B) :
  forall (l : list A) (i j : nat),
    nth_error (mapi_from f i l) j =
      match nth_error l j with
      | Some x => Some (f x (i + j))
      | None => None
      end.
Proof.
  induction l as [|x l IH]; intros i j.
  - destruct j; reflexivity.
  - destruct j as [|j]; cbn.
    + rewrite Nat.add_0_r. reflexivity.
    + rewrite IH. replace (S i + j) with (i + S j) by lia. reflexivity.
Qed.

Lemma completed_prefix_from (stages : list string) (cur : string)
    (err : option jsError) :
  forall (suf pre : list string),
    stages = pre ++ suf ->
    completedStages (mapi_from (stageView stages cur err) (List.length pre) suf) =
      firstn (Z.to_nat (indexOf cur stages) - List.length pre) suf.
Proof.
  induction suf as [|s suf IH]; intros pre Hst.
  - rewrite firstn_nil. reflexivity.
  - assert (Hnth : nth_error stages (List.length pre) = Some s).
    { rewrite Hst, nth_error_app2, Nat.sub_diag by lia. reflexivity. }
    assert (Hst' : stages = (pre ++ [s]) ++ suf).
    { rewrite <- app_assoc. exact Hst. }
    specialize (IH (pre ++ [s]) Hst').
    rewrite length_app in IH. cbn [List.length] in IH.
    replace (List.length pre + 1) with (S (List.length pre)) in IH by lia.
    cbn [mapi_from].
    destruct (Z.of_nat (List.length pre) <? indexOf cur stages)%Z eqn:Hlt.
    + rewrite (stageView_completed stages cur err s _ Hnth), Hlt.
      cbn [completedStages]. rewrite IH.
      apply Z.ltb_lt in Hlt.
      replace (Z.to_nat (indexOf cur stages) - List.length pre)
        with (S (Z.to_nat (indexOf cur stages) - S (List.length pre))) by lia.
      reflexivity.
    + apply Z.ltb_ge in Hlt.
      rewrite completedStages_skip by (apply stageView_not_completed; exact Hlt).
      rewrite IH.
      replace (Z.to_nat (indexOf cur stages) - List.length pre) with 0 by lia.
      replace (Z.to_nat (indexOf cur stages) - S (List.length pre)) with 0 by lia.
      reflexivity.
Qed.

(** The completed lines of one frame are the stages before the first
    position of the current stage. *)
Lemma Status_completed (stages : list string) (p : StatusProps)
    (d : ScratchOrgLifecycleEvent) (Hd : data p = Some d) :
  exists v,
    Status stages p = Some v /\
    completedStages (stageLines v) =
      firstn (Z.to_nat (indexOf (stage d) stages)) stages /\
    forall (i : nat) (s : string),
      nth_error stages i = Some s ->
      (nth_error (stageLines v) i = Some (Completed s) <->
       (Z.of_nat i < indexOf (stage d) stages)%Z).
Proof.
  unfold Status. rewrite Hd. eexists. split; [reflexivity|].
  cbn [stageLines]. split.
  - unfold mapi.
    pose proof (completed_prefix_from stages (stage d) (error p) stages [] eq_refl)
      as H.
    cbn [List.length] in H. rewrite Nat.sub_0_r in H. exact H.
  - intros i s Hi. unfold mapi. rewrite nth_error_mapi_from, Hi.
    cbn [Nat.add]. split.
    + intros H. injection H as H.
      destruct (Z.ltb_spec (Z.of_nat i) (indexOf (stage d) stages)) as [Hlt|Hge];
        [exact Hlt|].
      pose proof (stageView_not_completed stages (stage d) (error p) s i Hge) as Hn.
      rewrite H in Hn. discriminate.
    + intros Hlt. rewrite (stageView_completed stages _ _ s i Hi).
      replace (Z.of_nat i <? indexOf (stage d) stages)%Z with true
        by (symmetry; apply Z.ltb_lt; exact Hlt).
      reflexivity.
Qed.

(** ** The listener *)

Lemma deliver_app (url : string) :
  forall (a b : list ScratchOrgLifecycleEvent) (l : Locals),
    deliver url (a ++ b) l =
      (fst (deliver url b (fst (deliver url a l))),
       snd (deliver url a l) ++ snd (deliver url b (fst (deliver url a l)))).
Proof.
  induction a as [|d a IH]; intros b l.
  - cbn. destruct (deliver url b l); reflexivity.
  - cbn [app deliver].
    destruct (onLifecycleEvent url d l) as [l1 tr1].
    rewrite IH. destruct (deliver url a l1) as [l2 tr2]. cbn [fst snd].
    destruct (deliver url b l2) as [l3 tr3]. cbn [fst snd].
    rewrite app_assoc. reflexivity.
Qed.

(** The listener never touches the two instance variables nor the
    registration. *)
Lemma deliver_keeps_instances (url : string) :
  forall (evs : list ScratchOrgLifecycleEvent) (l : Locals),
    asyncInstance (fst (deliver url evs l)) = asyncInstance l /\
    statusInstance (fst (deliver url evs l)) = statusInstance l /\
    listening (fst (deliver url evs l)) = listening l.
Proof.
  induction evs as [|d evs IH]; intros l; [cbn; auto|].
  cbn [deliver].
  destruct (onLifecycleEvent url d l) as [l1 tr1] eqn:H1.
  destruct (deliver url evs l1) as [l2 tr2] eqn:H2. cbn [fst].
  specialize (IH l1). rewrite H2 in IH. cbn [fst] in IH.
  unfold onLifecycleEvent in H1.
  destruct (statusInstance l); injection H1 as <- _; cbn in IH; exact IH.
Qed.

Lemma unmounts_app (s : surface) (a b : list uiEvent) :
  unmounts s (a ++ b) = unmounts s a + unmounts s b.
Proof. unfold unmounts. rewrite filter_app, length_app. reflexivity. Qed.

Lemma created_app (s : surface) (a b : list uiEvent) :
  created s (a ++ b) = created s a || created s b.
Proof. unfold created. apply existsb_app. Qed.

Lemma rerendered_app (a b : list uiEvent) :
  rerendered (a ++ b) = rerendered a ++ rerendered b.
Proof.
  induction a as [|e a IH]; [reflexivity|].
  destruct e; cbn; rewrite ?IH; reflexivity.
Qed.

(** What one call of the listener does while the status view exists. *)
Lemma onLifecycleEvent_tracker (url : string) (d : ScratchOrgLifecycleEvent)
    (l : Locals) (Hl : statusInstance l = Some StatusInstance) :
  onLifecycleEvent url d l =
    ({| asyncInstance := asyncInstance l;
        statusInstance := Some StatusInstance;
        scratchOrgLifecycleData := Some d;
        listening := listening l |},
     Rerender StatusInstance (StatusNode (frameOf url d))
       :: (if isDone d then [Unmount StatusInstance] else [])).
Proof. unfold onLifecycleEvent. rewrite Hl. reflexivity. Qed.

(** While the status view exists, every event is rerendered, and every
    [done] event unmounts the view. *)
Lemma deliver_tracker (url : string) :
  forall (evs : list ScratchOrgLifecycleEvent) (l : Locals),
    statusInstance l = Some StatusInstance ->
    rerendered (snd (deliver url evs l)) =
      map (fun d => StatusNode (frameOf url d)) evs /\
    unmounts StatusInstance (snd (deliver url evs l)) = doneCount evs /\
    unmounts AsyncInstance (snd (deliver url evs l)) = 0 /\
    filter isSubscription (snd (deliver url evs l)) = [] /\
    created StatusInstance (snd (deliver url evs l)) = false /\
    created AsyncInstance (snd (deliver url evs l)) = false.
Proof.
  induction evs as [|d evs IH]; intros l Hl; [cbn; auto 10|].
  cbn [deliver]. rewrite (onLifecycleEvent_tracker url d l Hl).
  set (l1 := {| asyncInstance := asyncInstance l;
                statusInstance := Some StatusInstance;
                scratchOrgLifecycleData := Some d;
                listening := listening l |}).
  specialize (IH l1 eq_refl).
  destruct (deliver url evs l1) as [l2 tr2]. cbn [snd] in *.
  destruct IH as (Hr & Hu & Ha & Hs & Hc & Hc').
  rewrite rerendered_app, !unmounts_app, filter_app, !created_app.
  rewrite Hr, Hu, Ha, Hs, Hc, Hc'.
  unfold doneCount. cbn [filter].
  destruct (isDone d); cbn; auto 10.
Qed.

(** The index computed by [indexOf] is the first position of the stage. *)
Lemma indexOf_firstAt (x : string) (l : list string) (c : nat) :
  firstAt x l c -> indexOf x l = Z.of_nat c.
Proof.
  intros [Hc Hmin].
  pose proof (indexOf_first x l c Hc) as [Hlo Hhi].
  pose proof (indexOf_found x l Hlo) as Hf.
  destruct (Nat.lt_ge_cases (Z.to_nat (indexOf x l)) c) as [Hlt|Hge]; [|lia].
  exfalso. exact (Hmin _ Hlt Hf).
Qed.

Lemma firstAt_exists (x : string) :
  forall (l : list string), In x l -> exists c, firstAt x l c.
Proof.
  induction l as [|y l IH]; intros Hin; [contradiction|].
  destruct (String.eqb_spec y x) as [->|Hne].
  - exists 0. split; [reflexivity|]. intros j Hj. lia.
  - destruct Hin as [Heq|Hin]; [contradiction|].
    destruct (IH Hin) as [c [Hc Hmin]].
    exists (S c). split; [exact Hc|].
    intros [|j] Hj; cbn.
    + intros H. injection H as H. contradiction.
    + apply Hmin. lia.
Qed.

(** C6.  Whatever sequence of lifecycle events reaches the listener (so in
    particular one whose stages never decrease), the frame rerendered for
    each event shows as completed exactly the stages of the canonical list
    that lie before the position of that event's stage.  With [c] the first
    position at which the list holds the event's stage, the completed
    stages of the frame are the first [c] stages of the list, and a
    position holds a completed line if and only if it is smaller than [c];
    for a stage that the list does not hold, no stage is completed. *)
Theorem completed_stages_precede_current
    (stages : list string) (url : string)
    (evs : list ScratchOrgLifecycleEvent) :
  Forall2
    (fun d n =>
       exists v,
         n = StatusNode (frameOf url d) /\
         Status stages (frameOf url d) = Some v /\
         (forall c : nat,
             firstAt (stage d) stages c ->
             completedStages (stageLines v) = firstn c stages /\
             forall (i : nat) (s : string),
               nth_error stages i = Some s ->
               (nth_error (stageLines v) i = Some (Completed s) <-> i < c)) /\
         ((forall i, nth_error stages i <> Some (stage d)) ->
          completedStages (stageLines v) = []))
    evs
    (rerendered (snd (deliver url evs (trackerStart url)))).
Proof.
  destruct (deliver_tracker url evs (trackerStart url) eq_refl) as [Hr _].
  rewrite Hr. clear Hr.
  induction evs as [|d evs IH]; cbn [map]; constructor; [|exact IH].
  destruct (Status_completed stages (frameOf url d) d eq_refl) as [v [Hv [Hp Hi]]].
  exists v. split; [reflexivity|]. split; [exact Hv|]. split.
  - intros c Hc. rewrite (indexOf_firstAt _ _ _ Hc) in Hp, Hi.
    rewrite Nat2Z.id in Hp. split; [exact Hp|].
    intros i s Hs. rewrite (Hi i s Hs). lia.
  - intros Habs. rewrite (indexOf_absent _ _ Habs) in Hp. exact Hp.
Qed.

Lemma completed_stages_precede_current_witness :
  firstAt "available" exampleStages 3 /\
  exists v,
    Status exampleStages (frameOf hub (atStage "available")) = Some v /\
    completedStages (stageLines v) =
      ["prepare request"; "send request"; "wait for org"] /\
    nth_error (stageLines v) 2 = Some (Completed "wait for org") /\
    nth_error (stageLines v) 3 <> Some (Completed "available").
Proof.
  assert (Hfirst : firstAt "available" exampleStages 3).
  { split; [reflexivity|].
    intros [|[|[|j]]] Hj; cbn; [discriminate | discriminate | discriminate | lia]. }
  split; [exact Hfirst|].
  pose proof (completed_stages_precede_current exampleStages hub
                [atStage "available"]) as H.
  apply Forall2_cons_iff in H. destruct H as [(v & _ & Hv & Hpos & _) _].
  destruct (Hpos 3 Hfirst) as [Hcomp Hiff].
  exists v. split; [exact Hv|]. split; [exact Hcomp|]. split.
  - apply (Hiff 2 "wait for org" eq_refl). lia.
  - intros Hc. apply (Hiff 3 "available" eq_refl) in Hc. lia.
Defined.

Example completed_at_available :
  option_map (fun v => completedStages (stageLines v))
             (Status exampleStages (frameOf hub (atStage "available"))) =
    Some ["prepare request"; "send request"; "wait for org"].
Proof. reflexivity. Qed.

Example lines_at_done :
  option_map stageLines (Status exampleStages (frameOf hub (atStage "done"))) =
    Some [Completed "prepare request"; Completed "send request";
          Completed "wait for org"; Completed "available";
          Completed "authenticate"; Completed "deploy settings"; Done "done"].
Proof. reflexivity. Qed.

(** ** The command *)

(** [run] once the dev hub has an instance URL and the request is built. *)
Lemma run_started (async : bool) (url bin : string) (call : CreationCall)
    (Hurl : url <> "") :
  run async (Some url) (Ok tt) bin call =
    let '(l0, tr0) := startRendering async url in
    let '(l1, tr1) := awaitCreate url call l0 in
    match run_try async bin l1 (settled call) with
    | (Returned resp, tr2) => (Ok resp, tr0 ++ tr1 ++ tr2)
    | (Thrown e, tr2) =>
        let '(r, tr3) := run_catch bin url l1 e in
        (r, tr0 ++ tr1 ++ tr2 ++ tr3)
    end.
Proof.
  unfold run. apply String.eqb_neq in Hurl. rewrite Hurl. reflexivity.
Qed.

Lemma awaitCreate_sync (url : string) (call : CreationCall) :
  awaitCreate url call (trackerStart url) =
    deliver url (emitted call) (trackerStart url).
Proof. reflexivity. Qed.

(** Case analysis on how the creation call settles and on how the handler
    classifies the error. *)
Ltac settle call :=
  destruct (settled call) as [res|[msg name [[id|]|]|name msg|msg code ex]];
  [ destruct (r_scratchOrgInfo res) as [info|]
  | destruct (String.eqb name "ScratchOrgInfoTimeoutError")
  | destruct (String.eqb name "ScratchOrgInfoTimeoutError")
  | destruct (String.eqb name "ScratchOrgInfoTimeoutError")
  | | ].

(** X22.  The calls of [unmount()].  Once the attempt has started: under
    [--async] the async indicator is the only surface created and
    [unmount()] is called on it exactly once on every terminal path;
    otherwise the status view is the only surface created and [unmount()]
    is called on it once for every [done] event that the listener saw, and
    once more when [run] ends with an error. *)
Theorem teardown_counts (async : bool) (url bin : string) (call : CreationCall)
    (Hurl : url <> "") :
  let r := fst (run async (Some url) (Ok tt) bin call) in
  let tr := snd (run async (Some url) (Ok tt) bin call) in
  if async then
    created AsyncInstance tr = true /\
    created StatusInstance tr = false /\
    unmounts AsyncInstance tr = 1
  else
    created StatusInstance tr = true /\
    created AsyncInstance tr = false /\
    unmounts StatusInstance tr =
      doneCount (emitted call) + (if failed r then 1 else 0).
Proof.
  cbv zeta. rewrite (run_started async url bin call Hurl).
  destruct async.
  - unfold run_try, run_catch; cbn; settle call; cbn; auto.
  - cbn [startRendering]. rewrite awaitCreate_sync.
    destruct (deliver_keeps_instances url (emitted call) (trackerStart url))
      as (Ha & Hs & _).
    destruct (deliver_tracker url (emitted call) (trackerStart url) eq_refl)
      as (_ & Hu & _ & _ & Hc & Hc').
    destruct (deliver url (emitted call) (trackerStart url)) as [l1 tr1].
    cbn [fst snd] in *. cbn in Ha, Hs.
    unfold run_try, run_catch; rewrite Ha, Hs; settle call;
      cbn -[created unmounts app doneCount];
      rewrite !created_app, !unmounts_app, Hu, Hc, Hc'; cbn;
      repeat split; lia.
Qed.

Lemma teardown_counts_witness :
  hub <> "" /\
  unmounts StatusInstance
    (snd (run false (Some hub) (Ok tt) "sf"
            {| emitted := [atStage "available"; atStage "done"];
               settled := Ok fullResult |})) = 1 /\
  unmounts AsyncInstance
    (snd (run true (Some hub) (Ok tt) "sf"
            {| emitted := []; settled := Err (timeoutOf "2SR000000000001") |})) = 1.
Proof.
  split; [discriminate|]. split.
  - pose proof (teardown_counts false hub "sf"
                  {| emitted := [atStage "available"; atStage "done"];
                     settled := Ok fullResult |}) as H.
    cbv zeta in H. apply H. discriminate.
  - pose proof (teardown_counts true hub "sf"
                  {| emitted := []; settled := Err (timeoutOf "2SR000000000001") |}) as H.
    cbv zeta in H. apply H. discriminate.
Defined.

(** X23.  The calls of the listener.  The listener is never removed and
    has no guard: once it has seen a [done] event and called [unmount()],
    every later event still makes it call [rerender] on the same instance
    once, and [unmount()] once more when the later event is a [done] event
    too. *)
Theorem done_unmounts_but_listener_stays
    (url : string) (before later : list ScratchOrgLifecycleEvent)
    (d : ScratchOrgLifecycleEvent) (Hd : stage d = "done") :
  let seen := deliver url (before ++ [d]) (trackerStart url) in
  let rest := deliver url later (fst seen) in
  deliver url (before ++ d :: later) (trackerStart url) =
    (fst rest, snd seen ++ snd rest) /\
  (exists pre,
      snd seen = pre ++ [Rerender StatusInstance (StatusNode (frameOf url d));
                         Unmount StatusInstance]) /\
  statusInstance (fst seen) = Some StatusInstance /\
  listening (fst seen) = true /\
  rerendered (snd rest) = map (fun e => StatusNode (frameOf url e)) later /\
  unmounts StatusInstance (snd rest) = doneCount later.
Proof.
  cbv zeta.
  destruct (deliver_keeps_instances url (before ++ [d]) (trackerStart url))
    as (_ & Hs & Hl).
  cbn in Hs, Hl.
  destruct (deliver_tracker url later _ Hs) as (Hr & Hu & _).
  split; [|split; [|auto]].
  - replace (before ++ d :: later) with ((before ++ [d]) ++ later)
      by (rewrite <- app_assoc; reflexivity).
    apply deliver_app.
  - rewrite deliver_app. cbn [snd].
    exists (snd (deliver url before (trackerStart url))). f_equal.
    destruct (deliver_keeps_instances url before (trackerStart url)) as (_ & Hs' & _).
    change (statusInstance (trackerStart url)) with (Some StatusInstance) in Hs'.
    cbn [deliver].
    rewrite (onLifecycleEvent_tracker url d _ Hs'). cbn [snd].
    unfold isDone. rewrite Hd. reflexivity.
Qed.

Lemma done_unmounts_but_listener_stays_witness :
  stage (atStage "done") = "done" /\
  rerendered
    (snd (deliver hub [atStage "done"; atStage "prepare request"]
            (fst (deliver hub ([atStage "available"] ++ [atStage "done"])
                    (trackerStart hub))))) =
    [StatusNode (frameOf hub (atStage "done"));
     StatusNode (frameOf hub (atStage "prepare request"))].
Proof.
  split; [reflexivity|].
  pose proof (done_unmounts_but_listener_stays hub [atStage "available"]
                [atStage "done"; atStage "prepare request"]
                (atStage "done") eq_refl) as H.
  cbv zeta in H. destruct H as (_ & _ & _ & _ & Hr & _). exact Hr.
Defined.

(** ** The surfaces as the rendering library keeps them *)

Lemma view_app (s : surface) (a b : list uiEvent) (st : viewState) :
  view s (a ++ b) st = view s b (view s a st).
Proof. unfold view. apply fold_left_app. Qed.

(** Lifecycle events change nothing on an instance that is unmounted. *)
Lemma view_deliver_unmounted (s : surface) (url : string) :
  forall (evs : list ScratchOrgLifecycleEvent) (l : Locals) (st : viewState),
    mounted st = false ->
    view s (snd (deliver url evs l)) st = st.
Proof.
  induction evs as [|d evs IH]; intros l st Hst; [reflexivity|].
  cbn [deliver].
  destruct (onLifecycleEvent url d l) as [l1 tr1] eqn:H1.
  specialize (IH l1 st Hst).
  destruct (deliver url evs l1) as [l2 tr2]. cbn [snd] in *.
  rewrite view_app.
  replace (view s tr1 st) with st; [exact IH|].
  unfold onLifecycleEvent in H1.
  assert (Hre : forall i n, viewStep s st (Rerender i n) = st).
  { intros i n. cbn. rewrite Hst, andb_false_r. reflexivity. }
  assert (Hun : forall i, viewStep s st (Unmount i) = st).
  { intros i. cbn. rewrite Hst, andb_false_r. reflexivity. }
  destruct (statusInstance l) as [i|]; injection H1 as _ <-; [|reflexivity].
  unfold view.
  destruct (String.eqb (stage d) "done"); cbn [fold_left];
    rewrite ?Hre, ?Hun; reflexivity.
Qed.

(** What the lifecycle events do to the status view. *)
Lemma view_deliver_status (url : string) :
  forall (evs : list ScratchOrgLifecycleEvent) (l : Locals) (st : viewState),
    statusInstance l = Some StatusInstance ->
    mounted (view StatusInstance (snd (deliver url evs l)) st) =
      mounted st && Nat.eqb (doneCount evs) 0 /\
    teardowns (view StatusInstance (snd (deliver url evs l)) st) =
      teardowns st +
      (if mounted st && negb (Nat.eqb (doneCount evs) 0) then 1 else 0).
Proof.
  induction evs as [|d evs IH]; intros l st Hl.
  - cbn. rewrite andb_true_r, andb_false_r. split; [reflexivity|lia].
  - cbn [deliver]. rewrite (onLifecycleEvent_tracker url d l Hl).
    set (l1 := {| asyncInstance := asyncInstance l;
                  statusInstance := Some StatusInstance;
                  scratchOrgLifecycleData := Some d;
                  listening := listening l |}).
    pose proof (IH l1) as IH1.
    pose proof (view_deliver_unmounted StatusInstance url evs l1) as Hquiet.
    destruct (deliver url evs l1) as [l2 tr2]. cbn [snd] in *.
    rewrite view_app. unfold doneCount. cbn [filter].
    destruct st as [m sh t]. destruct (isDone d); destruct m; cbn.
    + rewrite Hquiet by reflexivity. cbn. split; [reflexivity|lia].
    + rewrite Hquiet by reflexivity. cbn. split; [reflexivity|lia].
    + destruct (IH1 {| mounted := true;
                       shown := sh ++ [StatusNode (frameOf url d)];
                       teardowns := t |} eq_refl) as [Hm Ht].
      unfold doneCount in Hm, Ht. cbn in Hm, Ht. rewrite Hm, Ht. auto.
    + rewrite Hquiet by reflexivity. cbn. split; [reflexivity|lia].
Qed.

(** The lifecycle events never touch the async indicator. *)
Lemma view_deliver_async (url : string) :
  forall (evs : list ScratchOrgLifecycleEvent) (l : Locals) (st : viewState),
    statusInstance l = Some StatusInstance ->
    view AsyncInstance (snd (deliver url evs l)) st = st.
Proof.
  induction evs as [|d evs IH]; intros l st Hl; [reflexivity|].
  cbn [deliver]. rewrite (onLifecycleEvent_tracker url d l Hl).
  set (l1 := {| asyncInstance := asyncInstance l;
                statusInstance := Some StatusInstance;
                scratchOrgLifecycleData := Some d;
                listening := listening l |}).
  specialize (IH l1 st eq_refl).
  destruct (deliver url evs l1) as [l2 tr2]. cbn [snd] in *.
  rewrite view_app. destruct (isDone d); cbn; exact IH.
Qed.

(** C3.  Once the attempt has started, and given that the creation call
    publishes the [done] event before it resolves with the org
    information: on every terminal path (success, creation timeout, any
    other failure, in either mode) a surface that [run] created has been
    torn down exactly once and is no longer live when [run] returns, and a
    surface that [run] did not create was never torn down. *)
Theorem every_surface_is_torn_down_once
    (async : bool) (url bin : string) (call : CreationCall) (s : surface)
    (Hurl : url <> "")
    (Hdone : async = false -> doneBeforeSuccess call = true) :
  let tr := snd (run async (Some url) (Ok tt) bin call) in
  created s tr = sameSurface s (if async then AsyncInstance else StatusInstance) /\
  if created s tr
  then teardowns (view s tr noView) = 1 /\ mounted (view s tr noView) = false
  else teardowns (view s tr noView) = 0.
Proof.
  cbv zeta. rewrite (run_started async url bin call Hurl).
  destruct async.
  - clear Hdone. unfold run_try, run_catch; cbn; settle call; destruct s; cbn; auto.
  - specialize (Hdone eq_refl). unfold doneBeforeSuccess in Hdone.
    cbn [startRendering]. rewrite awaitCreate_sync.
    destruct (deliver_keeps_instances url (emitted call) (trackerStart url))
      as (Ha & Hs & _).
    destruct (deliver_tracker url (emitted call) (trackerStart url) eq_refl)
      as (_ & _ & _ & _ & Hc & Hc').
    pose proof (view_deliver_status url (emitted call) (trackerStart url)
                  {| mounted := true;
                     shown := [StatusNode {| data := None; baseUrl := url;
                                             error := None |}];
                     teardowns := 0 |} eq_refl) as [Hm Ht].
    pose proof (view_deliver_async url (emitted call) (trackerStart url)
                  noView eq_refl) as Hasync.
    destruct (deliver url (emitted call) (trackerStart url)) as [l1 tr1].
    cbn [fst snd] in *. cbn in Ha, Hs. cbn [mounted teardowns andb Nat.add] in Hm, Ht.
    unfold run_try, run_catch; rewrite Ha, Hs.
    destruct s.
    + (* the async indicator was not created *)
      settle call; cbn -[created view app];
        rewrite !created_app, Hc'; (split; [reflexivity|]);
        cbn -[view app]; rewrite !view_app; cbn -[view app];
        change (view AsyncInstance
                  [Render StatusInstance
                     (StatusNode {| data := None; baseUrl := url; error := None |});
                   LifecycleOn scratchOrgLifecycleEventName] noView) with noView;
        rewrite Hasync; reflexivity.
    + (* the status view *)
      settle call; cbn -[created view app];
        rewrite !created_app; (split; [reflexivity|]);
        cbn -[view app]; rewrite !view_app;
        change (view StatusInstance
                  [Render StatusInstance
                     (StatusNode {| data := None; baseUrl := url; error := None |});
                   LifecycleOn scratchOrgLifecycleEventName] noView)
          with {| mounted := true;
                  shown := [StatusNode {| data := None; baseUrl := url;
                                          error := None |}];
                  teardowns := 0 |};
        destruct (view StatusInstance tr1 _) as [m sh t];
        cbn [mounted teardowns] in Hm, Ht;
        destruct (Nat.eqb (doneCount (emitted call)) 0) eqn:Hz;
        cbn in Hm, Ht; subst m t; cbn; auto;
        apply Nat.eqb_eq in Hz; rewrite Hz in Hdone; discriminate.
Qed.

Lemma every_surface_is_torn_down_once_witness :
  hub <> "" /\
  (false = false ->
   doneBeforeSuccess {| emitted := [atStage "available"; atStage "done"];
                        settled := Ok fullResult |} = true) /\
  (let tr := snd (run false (Some hub) (Ok tt) "sf"
                    {| emitted := [atStage "available"; atStage "done"];
                       settled := Ok fullResult |}) in
   created StatusInstance tr = true /\
   teardowns (view StatusInstance tr noView) = 1 /\
   mounted (view StatusInstance tr noView) = false) /\
  (let tr := snd (run false (Some hub) (Ok tt) "sf"
                    {| emitted := [atStage "available"; atStage "done"];
                       settled := Ok emptyResult |}) in
   unmounts StatusInstance tr = 2 /\
   teardowns (view StatusInstance tr noView) = 1 /\
   mounted (view StatusInstance tr noView) = false).
Proof.
  assert (Hhub : hub <> "") by discriminate.
  split; [exact Hhub|]. split; [reflexivity|]. split.
  - pose proof (every_surface_is_torn_down_once false hub "sf"
                  {| emitted := [atStage "available"; atStage "done"];
                     settled := Ok fullResult |} StatusInstance Hhub
                  (fun _ => eq_refl)) as H.
    cbv zeta in H. cbv zeta. destruct H as [Hc H]. rewrite Hc in H.
    split; [exact Hc|]. exact H.
  - pose proof (every_surface_is_torn_down_once false hub "sf"
                  {| emitted := [atStage "available"; atStage "done"];
                     settled := Ok emptyResult |} StatusInstance Hhub
                  (fun _ => eq_refl)) as H.
    cbv zeta in H. cbv zeta. destruct H as [Hc H]. rewrite Hc in H.
    split; [reflexivity|]. exact H.
Defined.

(** C4.  Once the listener has seen a [done] event, the status view is no
    longer live, and no event that the listener sees afterwards changes
    it: whatever the later events are, the view has been drawn exactly as
    often, with exactly the same nodes, as when the [done] event was
    seen. *)
Theorem no_render_after_done
    (url : string) (before later : list ScratchOrgLifecycleEvent)
    (d : ScratchOrgLifecycleEvent) (st : viewState)
    (Hd : stage d = "done") :
  let seen := snd (deliver url (before ++ [d]) (trackerStart url)) in
  let all := snd (deliver url (before ++ d :: later) (trackerStart url)) in
  mounted (view StatusInstance seen st) = false /\
  view StatusInstance all st = view StatusInstance seen st /\
  shown (view StatusInstance all st) = shown (view StatusInstance seen st).
Proof.
  cbv zeta.
  assert (Hm : mounted (view StatusInstance
                          (snd (deliver url (before ++ [d]) (trackerStart url))) st)
               = false).
  { destruct (view_deliver_status url (before ++ [d]) (trackerStart url) st eq_refl)
      as [Hm _].
    rewrite Hm. unfold doneCount. rewrite filter_app, length_app. cbn [filter].
    unfold isDone. rewrite Hd. cbn [String.eqb Ascii.eqb Bool.eqb List.length].
    replace (Nat.eqb _ 0) with false by (symmetry; apply Nat.eqb_neq; lia).
    apply andb_false_r. }
  assert (Hall : view StatusInstance
                   (snd (deliver url (before ++ d :: later) (trackerStart url))) st =
                 view StatusInstance
                   (snd (deliver url (before ++ [d]) (trackerStart url))) st).
  { replace (before ++ d :: later) with ((before ++ [d]) ++ later)
      by (rewrite <- app_assoc; reflexivity).
    rewrite (deliver_app url (before ++ [d]) later). cbn [snd].
    rewrite view_app. apply view_deliver_unmounted. exact Hm. }
  split; [exact Hm|]. split; [exact Hall|]. rewrite Hall. reflexivity.
Qed.

Lemma no_render_after_done_witness :
  stage (atStage "done") = "done" /\
  shown (view StatusInstance
           (snd (run false (Some hub) (Ok tt) "sf"
                   {| emitted := [atStage "available"; atStage "done";
                                  atStage "done"; atStage "prepare request"];
                      settled := Ok fullResult |})) noView) =
    [StatusNode {| data := None; baseUrl := hub; error := None |};
     StatusNode (frameOf hub (atStage "available"));
     StatusNode (frameOf hub (atStage "done"))] /\
  view StatusInstance
    (snd (deliver hub ([atStage "available"] ++
                       atStage "done" :: [atStage "done"; atStage "prepare request"])
            (trackerStart hub))) noView =
  view StatusInstance
    (snd (deliver hub ([atStage "available"] ++ [atStage "done"])
            (trackerStart hub))) noView.
Proof.
  split; [reflexivity|]. split; [reflexivity|].
  pose proof (no_render_after_done hub [atStage "available"]
                [atStage "done"; atStage "prepare request"]
                (atStage "done") noView eq_refl) as H.
  cbv zeta in H. exact (proj1 (proj2 H)).
Defined.

(** C5.  The creation call rejects with an [SfError] named
    [ScratchOrgInfoTimeoutError] whose data carries the request identifier
    [id]: the last thing [run] prints is the [action.resume] message built
    from the program name and [id], and [run] ends in the error thrown by
    [this.error] with exit code 69. *)
Theorem creation_timeout_exits_69
    (async : bool) (url bin msg id : string)
    (evs : list ScratchOrgLifecycleEvent) (Hurl : url <> "") :
  let out := run async (Some url) (Ok tt) bin
               {| emitted := evs;
                  settled := Err (SfError msg "ScratchOrgInfoTimeoutError"
                                          (Some (Some id))) |} in
  fst out =
    Err (CLIError "The scratch org did not complete within your wait time"
                  "69" 69) /\
  exists pre m,
    snd out = pre ++ [Info m] /\
    m = {| key := "action.resume"; tokens := [Some bin; Some id] |} /\
    In (Some id) (tokens m).
Proof.
  cbv zeta. rewrite (run_started async url bin _ Hurl).
  destruct (startRendering async url) as [l0 tr0].
  destruct (awaitCreate url _ l0) as [l1 tr1].
  cbn [settled run_try run_catch String.eqb Ascii.eqb Bool.eqb fst snd].
  split; [reflexivity|].
  eexists. eexists. split; [rewrite !app_assoc; reflexivity|].
  split; [reflexivity|]. right. left. reflexivity.
Qed.

Lemma creation_timeout_exits_69_witness :
  hub <> "" /\
  run false (Some hub) (Ok tt) "sf"
    {| emitted := [atStage "prepare request"; atStage "send request"];
       settled := Err (SfError "timed out" "ScratchOrgInfoTimeoutError"
                               (Some (Some "0Rxxx"))) |} =
    (Err (CLIError "The scratch org did not complete within your wait time"
                   "69" 69),
     [Render StatusInstance
        (StatusNode {| data := None; baseUrl := hub; error := None |});
      LifecycleOn scratchOrgLifecycleEventName;
      Rerender StatusInstance (StatusNode (frameOf hub (atStage "prepare request")));
      Rerender StatusInstance (StatusNode (frameOf hub (atStage "send request")));
      Rerender StatusInstance
        (StatusNode {| data := Some (atStage "send request"); baseUrl := hub;
                       error := Some (SfError "timed out"
                                              "ScratchOrgInfoTimeoutError"
                                              (Some (Some "0Rxxx"))) |});
      Unmount StatusInstance;
      Info {| key := "action.resume"; tokens := [Some "sf"; Some "0Rxxx"] |}]).
Proof.
  assert (Hhub : hub <> "") by discriminate.
  split; [exact Hhub|].
  pose proof (creation_timeout_exits_69 false hub "sf" "timed out" "0Rxxx"
                [atStage "prepare request"; atStage "send request"] Hhub) as H.
  cbv zeta in H. destruct H as (Hres & _).
  apply injective_projections; [exact Hres | reflexivity].
Defined.

(** C9.  Under [--async], once the attempt has started, [run] never calls
    [lifecycle.on], never rerenders, and the only node it ever renders is
    the "Requesting Scratch Org" indicator, rendered once; this holds
    whatever events the creation call publishes and however it settles. *)
Theorem async_never_subscribes
    (url bin : string) (call : CreationCall) (Hurl : url <> "") :
  let tr := snd (run true (Some url) (Ok tt) bin call) in
  filter isSubscription tr = [] /\
  filter isDraw tr = [Render AsyncInstance asyncIndicator].
Proof.
  cbv zeta. rewrite (run_started true url bin call Hurl).
  unfold run_try, run_catch; cbn; settle call; cbn; auto.
Qed.

Lemma async_never_subscribes_witness :
  hub <> "" /\
  filter isDraw
    (snd (run true (Some hub) (Ok tt) "sf"
            {| emitted := [atStage "prepare request"; atStage "done"];
               settled := Ok fullResult |})) =
    [Render AsyncInstance asyncIndicator].
Proof.
  assert (Hhub : hub <> "") by discriminate.
  split; [exact Hhub|].
  pose proof (async_never_subscribes hub "sf"
                {| emitted := [atStage "prepare request"; atStage "done"];
                   settled := Ok fullResult |} Hhub) as H.
  cbv zeta in H. exact (proj2 H).
Defined.

(** C10.  The creation call resolves with a result that has no
    [scratchOrgInfo]: [run] does not return a response, it ends in the
    [SfError] "The scratch org did not return with any information", in
    either mode and whatever events were published. *)
Theorem missing_info_is_an_error
    (async : bool) (url bin : string) (evs : list ScratchOrgLifecycleEvent)
    (res : ScratchOrgCreateResult) (Hurl : url <> "")
    (Hinfo : r_scratchOrgInfo res = None) :
  fst (run async (Some url) (Ok tt) bin {| emitted := evs; settled := Ok res |}) =
    Err (newSfError "The scratch org did not return with any information").
Proof.
  rewrite (run_started async url bin _ Hurl).
  destruct (startRendering async url) as [l0 tr0].
  destruct (awaitCreate url _ l0) as [l1 tr1].
  cbn [settled run_try]. rewrite Hinfo. reflexivity.
Qed.

Lemma missing_info_is_an_error_witness :
  hub <> "" /\
  r_scratchOrgInfo emptyResult = None /\
  fst (run false (Some hub) (Ok tt) "sf"
         {| emitted := [atStage "done"]; settled := Ok emptyResult |}) =
    Err (SfError "The scratch org did not return with any information"
                 "SfError" None).
Proof.
  assert (Hhub : hub <> "") by discriminate.
  split; [exact Hhub|]. split; [reflexivity|].
  exact (missing_info_is_an_error false hub "sf" [atStage "done"] emptyResult
           Hhub eq_refl).
Defined.

(** The listener keeps the most recent event. *)
Lemma deliver_lastSeen (url : string) :
  forall (evs : list ScratchOrgLifecycleEvent) (l : Locals),
    scratchOrgLifecycleData (fst (deliver url evs l)) =
      lastSeen evs (scratchOrgLifecycleData l).
Proof.
  induction evs as [|d evs IH]; intros l; [reflexivity|].
  cbn [deliver].
  destruct (onLifecycleEvent url d l) as [l1 tr1] eqn:H1.
  specialize (IH l1).
  destruct (deliver url evs l1) as [l2 tr2]. cbn [fst] in *.
  rewrite IH. unfold onLifecycleEvent in H1.
  destruct (statusInstance l); injection H1 as <- _; reflexivity.
Qed.

Lemma deliver_no_info (url : string) :
  forall (evs : list ScratchOrgLifecycleEvent) (l : Locals),
    filter isInfo (snd (deliver url evs l)) = [].
Proof.
  induction evs as [|d evs IH]; intros l; [reflexivity|].
  cbn [deliver].
  destruct (onLifecycleEvent url d l) as [l1 tr1] eqn:H1.
  specialize (IH l1).
  destruct (deliver url evs l1) as [l2 tr2]. cbn [snd] in *.
  rewrite filter_app, IH, app_nil_r. unfold onLifecycleEvent in H1.
  destruct (statusInstance l); injection H1 as _ <-; [|reflexivity].
  destruct (String.eqb (stage d) "done"); reflexivity.
Qed.

(** X4.  The creation call rejects with an error that the [catch] block
    does not classify as a creation timeout: [run] rejects with that very
    error and prints no resume message; in synchronous mode the last two
    things it does to the status view are one rerender with the most recent
    event and the error, and the unmount. *)
Theorem unclassified_failure_propagates
    (async : bool) (url bin : string) (call : CreationCall) (e : jsError)
    (Hurl : url <> "")
    (Hset : settled call = Err e)
    (Hcls : isCreationTimeout e = false) :
  let out := run async (Some url) (Ok tt) bin call in
  fst out = Err e /\
  filter isInfo (snd out) = [] /\
  (async = false ->
   exists pre,
     snd out =
       pre ++ [Rerender StatusInstance
                 (StatusNode {| data := lastSeen (emitted call) None;
                                baseUrl := url; error := Some e |});
               Unmount StatusInstance]).
Proof.
  cbv zeta. rewrite (run_started async url bin call Hurl).
  destruct async.
  - cbn. rewrite Hset. unfold run_catch. cbn [asyncInstance statusInstance].
    destruct e as [msg name d|name msg|msg code ex]; cbn in Hcls;
      cbn; rewrite ?Hcls; cbn; (split; [reflexivity|]); (split; [reflexivity|]);
      intros H; discriminate H.
  - cbn [startRendering]. rewrite awaitCreate_sync.
    destruct (deliver_keeps_instances url (emitted call) (trackerStart url))
      as (Ha & Hs & _).
    pose proof (deliver_lastSeen url (emitted call) (trackerStart url)) as Hlast.
    pose proof (deliver_no_info url (emitted call) (trackerStart url)) as Hinfo.
    destruct (deliver url (emitted call) (trackerStart url)) as [l1 tr1].
    cbn [fst snd] in *. cbn in Ha, Hs, Hlast.
    rewrite Hset. unfold run_try, run_catch. rewrite Ha, Hs, Hlast.
    destruct e as [msg name d|name msg|msg code ex]; cbn in Hcls;
      cbn -[app lastSeen]; rewrite ?Hcls; cbn -[app lastSeen];
      (split; [reflexivity|]);
      (split; [cbn; rewrite filter_app, Hinfo; reflexivity|]);
      intros _; exists ([Render StatusInstance
                           (StatusNode {| data := None; baseUrl := url; error := None |});
                         LifecycleOn scratchOrgLifecycleEventName] ++ tr1);
      rewrite <- !app_assoc; reflexivity.
Qed.

Lemma unclassified_failure_propagates_witness :
  hub <> "" /\
  run false (Some hub) (Ok tt) "sf"
    {| emitted := [atStage "prepare request"];
       settled := Err (OtherError "Error" "socket hang up") |} =
    (Err (OtherError "Error" "socket hang up"),
     [Render StatusInstance
        (StatusNode {| data := None; baseUrl := hub; error := None |});
      LifecycleOn scratchOrgLifecycleEventName;
      Rerender StatusInstance (StatusNode (frameOf hub (atStage "prepare request")));
      Rerender StatusInstance
        (StatusNode {| data := Some (atStage "prepare request"); baseUrl := hub;
                       error := Some (OtherError "Error" "socket hang up") |});
      Unmount StatusInstance]).
Proof.
  assert (Hhub : hub <> "") by discriminate.
  split; [exact Hhub|].
  pose proof (unclassified_failure_propagates false hub "sf"
                {| emitted := [atStage "prepare request"];
                   settled := Err (OtherError "Error" "socket hang up") |}
                (OtherError "Error" "socket hang up") Hhub eq_refl eq_refl) as H.
  cbv zeta in H. destruct H as (Hres & _).
  apply injective_projections; [exact Hres | reflexivity].
Defined.

(** ** The [edition] flag *)

Lemma prefix_split :
  forall (p s : string),
    String.prefix p s = true -> s = (p ++ string_drop (String.length p) s)%string.
Proof.
  induction p as [|a p IH]; intros s H; [reflexivity|].
  destruct s as [|b s]; [discriminate|]. cbn in H.
  destruct (ascii_dec a b) as [->|]; [|discriminate].
  cbn. rewrite <- (IH s H). reflexivity.
Qed.

Lemma replaceFirst_cons (pat rep : string) (c : ascii) (r : string) :
  replaceFirst pat rep (String c r) =
    if String.prefix pat (String c r)
    then (rep ++ string_drop (String.length pat) (String c r))%string
    else String c (replaceFirst pat rep r).
Proof. reflexivity. Qed.

Lemma replaceFirst_hyphen_length (s : string) :
  String.length (replaceFirst "-" " " s) = String.length s.
Proof.
  induction s as [|c r IH]; [reflexivity|]. rewrite replaceFirst_cons.
  destruct (String.prefix "-" (String c r)).
  - reflexivity.
  - cbn [String.length]. rewrite IH. reflexivity.
Qed.

(** X13.  The [edition] flag turns [partner-X] into [partner X], replacing
    that one hyphen and no other; every other value is left as it is.  The
    parsed value has the length of the given one, and parsing it again
    changes nothing. *)
Theorem parseEdition_replaces_the_partner_hyphen (rest v : string) :
  parseEdition ("partner-" ++ rest) = ("partner " ++ rest)%string /\
  (String.prefix "partner-" v = false -> parseEdition v = v) /\
  String.length (parseEdition v) = String.length v /\
  parseEdition (parseEdition v) = parseEdition v.
Proof.
  assert (H1 : forall r, parseEdition ("partner-" ++ r) = ("partner " ++ r)%string).
  { intros r. unfold parseEdition. rewrite OpenProofs.prefix_app.
    cbn. destruct r; reflexivity. }
  split; [apply H1|]. split; [|split].
  - intros H. unfold parseEdition. rewrite H. reflexivity.
  - unfold parseEdition. destruct (String.prefix "partner-" v); [|reflexivity].
    apply replaceFirst_hyphen_length.
  - destruct (String.prefix "partner-" v) eqn:Hp.
    + rewrite (prefix_split _ _ Hp), H1.
      unfold parseEdition at 1. reflexivity.
    + unfold parseEdition. rewrite Hp, Hp. reflexivity.
Qed.

Example parseEdition_options :
  map parseEdition editionOptions =
    ["developer"; "enterprise"; "group"; "professional";
     "partner developer"; "partner enterprise"; "partner group";
     "partner professional"].
Proof. reflexivity. Qed.

Example parseEdition_second_hyphen :
  parseEdition "partner-group-x" = "partner group-x".
Proof. reflexivity. Qed.

(** ** Every line of the stage list *)

Lemma length_mapi_from {A B : Type} (f : A -> nat -> B) :
  forall (l : list A) (i : nat), List.length (mapi_from f i l) = List.length l.
Proof.
  induction l as [|x l IH]; intros i; [reflexivity|]. cbn. rewrite IH. reflexivity.
Qed.

(** X14.  For a stage list without repetition and an event whose stage is
    at position [c] of it, [Status] shows one line per stage: a completed
    line before [c]; at [c] the spinner line carrying the error, or the
    blue line when the stage is [done]; after [c] a pending line, except
    that a [done] stage gets no line at all. *)
Theorem stage_lines_classified
    (stages : list string) (p : StatusProps) (d : ScratchOrgLifecycleEvent)
    (c : nat)
    (Hd : data p = Some d)
    (Hnd : NoDup stages)
    (Hc : nth_error stages c = Some (stage d)) :
  exists v,
    Status stages p = Some v /\
    List.length (stageLines v) = List.length stages /\
    forall (i : nat) (s : string),
      nth_error stages i = Some s ->
      nth_error (stageLines v) i = Some (expectedLine c (error p) i s).
Proof.
  unfold Status. rewrite Hd. eexists. split; [reflexivity|].
  cbn [stageLines]. unfold mapi. split; [apply length_mapi_from|].
  intros i s Hi. rewrite nth_error_mapi_from, Hi. cbn [Nat.add]. f_equal.
  pose proof (indexOf_NoDup (stage d) stages c Hnd Hc) as Hidx.
  unfold expectedLine.
  destruct (Nat.ltb_spec i c) as [Hlt|Hge].
  - rewrite (stageView_completed stages _ _ s i Hi).
    replace (Z.of_nat i <? indexOf (stage d) stages)%Z with true
      by (symmetry; apply Z.ltb_lt; lia).
    reflexivity.
  - unfold stageView.
    replace (Z.of_nat i <? indexOf (stage d) stages)%Z with false
      by (symmetry; apply Z.ltb_ge; lia).
    destruct (Nat.eqb_spec i c) as [->|Hne].
    + rewrite Hc in Hi. injection Hi as <-. rewrite String.eqb_refl.
      destruct (String.eqb (stage d) "done"); reflexivity.
    + replace (String.eqb (stage d) s) with false; [cbn [andb]|].
      * destruct (String.eqb s "done"); reflexivity.
      * symmetry. apply String.eqb_neq. intros Heq. subst s. apply Hne.
        apply (proj1 (NoDup_nth_error stages) Hnd i c).
        -- apply nth_error_Some. rewrite Hi. discriminate.
        -- rewrite Hi, Hc. reflexivity.
Qed.

Lemma stage_lines_classified_witness :
  nth_error exampleStages 3 = Some (stage (atStage "available")) /\
  option_map stageLines
    (Status exampleStages
       {| data := Some (atStage "available"); baseUrl := hub;
          error := Some (OtherError "Error" "socket hang up") |}) =
    Some [Completed "prepare request"; Completed "send request";
          Completed "wait for org";
          Current "available" (Some (OtherError "Error" "socket hang up"));
          Future "authenticate"; Future "deploy settings"; NoLine].
Proof.
  split; [reflexivity|].
  assert (Hnd : NoDup exampleStages).
  { unfold exampleStages.
    repeat (constructor; [cbn; intuition discriminate|]). constructor. }
  destruct (stage_lines_classified exampleStages
              {| data := Some (atStage "available"); baseUrl := hub;
                 error := Some (OtherError "Error" "socket hang up") |}
              (atStage "available") 3 eq_refl Hnd eq_refl) as [v [Hv _]].
  rewrite Hv. cbn in Hv. injection Hv as <-. reflexivity.
Defined.

(** X15.  For an event whose stage is not in the stage list, [Status]
    shows no completed line, no spinner line and no blue line: every stage
    is pending, and a [done] stage gets no line. *)
Theorem unknown_stage_shows_all_pending
    (stages : list string) (p : StatusProps) (d : ScratchOrgLifecycleEvent)
    (Hd : data p = Some d)
    (Habs : forall i, nth_error stages i <> Some (stage d)) :
  exists v,
    Status stages p = Some v /\
    completedStages (stageLines v) = [] /\
    forall (i : nat) (s : string),
      nth_error stages i = Some s ->
      nth_error (stageLines v) i =
        Some (if String.eqb s "done" then NoLine else Future s).
Proof.
  destruct (Status_completed stages p d Hd) as [v [Hv [Hcomp _]]].
  exists v. split; [exact Hv|].
  rewrite (indexOf_absent _ _ Habs) in Hcomp. split; [exact Hcomp|].
  unfold Status in Hv. rewrite Hd in Hv. injection Hv as <-.
  cbn [stageLines]. unfold mapi.
  intros i s Hi. rewrite nth_error_mapi_from, Hi. cbn [Nat.add]. f_equal.
  unfold stageView. rewrite (indexOf_absent _ _ Habs).
  replace (String.eqb (stage d) s) with false.
  - cbn [andb]. replace (Z.of_nat i <? -1)%Z with false
      by (symmetry; apply Z.ltb_ge; lia).
    destruct (String.eqb s "done"); reflexivity.
  - symmetry. apply String.eqb_neq. intros Heq. subst s. exact (Habs i Hi).
Qed.

Lemma unknown_stage_shows_all_pending_witness :
  (forall i, nth_error exampleStages i <> Some (stage (atStage "queued"))) /\
  option_map stageLines (Status exampleStages (frameOf hub (atStage "queued"))) =
    Some [Future "prepare request"; Future "send request"; Future "wait for org";
          Future "available"; Future "authenticate"; Future "deploy settings";
          NoLine].
Proof.
  assert (Habs : forall i, nth_error exampleStages i <> Some (stage (atStage "queued"))).
  { intros i. do 7 (destruct i as [|i]; [discriminate|]). destruct i; discriminate. }
  split; [exact Habs|].
  destruct (unknown_stage_shows_all_pending exampleStages
              (frameOf hub (atStage "queued")) (atStage "queued") eq_refl Habs)
    as [v [Hv _]].
  rewrite Hv. cbn in Hv. injection Hv as <-. reflexivity.
Defined.

(** ** More on the command *)

Lemma deliver_no_message (url : string) :
  forall (evs : list ScratchOrgLifecycleEvent) (l : Locals),
    filter isMessage (snd (deliver url evs l)) = [].
Proof.
  induction evs as [|d evs IH]; intros l; [reflexivity|].
  cbn [deliver].
  destruct (onLifecycleEvent url d l) as [l1 tr1] eqn:H1.
  specialize (IH l1).
  destruct (deliver url evs l1) as [l2 tr2]. cbn [snd] in *.
  rewrite filter_app, IH, app_nil_r. unfold onLifecycleEvent in H1.
  destruct (statusInstance l); injection H1 as _ <-; [|reflexivity].
  destruct (String.eqb (stage d) "done"); reflexivity.
Qed.

Lemma drawn_app (a b : list uiEvent) : drawn (a ++ b) = drawn a ++ drawn b.
Proof.
  induction a as [|e a IH]; [reflexivity|].
  destruct e; cbn; rewrite ?IH; reflexivity.
Qed.

(** X16.  Once the attempt has started, [run] resolves exactly when the
    creation call resolved with a result that has org information, and then
    with the fields of that result, [orgId] being that of its auth fields;
    in every other case it rejects. *)
Theorem run_resolves_iff
    (async : bool) (url bin : string) (call : CreationCall)
    (resp : ScratchCreateResponse) (Hurl : url <> "") :
  fst (run async (Some url) (Ok tt) bin call) = Ok resp <->
  exists r info,
    settled call = Ok r /\
    r_scratchOrgInfo r = Some info /\
    resp = {| resp_username := r_username r;
              resp_scratchOrgInfo := info;
              resp_authFields := r_authFields r;
              resp_warnings := r_warnings r;
              resp_orgId := match r_authFields r with
                            | Some o => o
                            | None => None
                            end |}.
Proof.
  rewrite (run_started async url bin call Hurl).
  destruct (startRendering async url) as [l0 tr0].
  destruct (awaitCreate url call l0) as [l1 tr1].
  unfold run_try.
  destruct (settled call) as [r|e].
  - destruct (r_scratchOrgInfo r) as [info|] eqn:Hinfo.
    + cbn [fst]. split.
      * intros H. injection H as <-. exists r, info. auto.
      * intros (r' & info' & Hr & Hi & ->). injection Hr as <-.
        rewrite Hinfo in Hi. injection Hi as <-. reflexivity.
    + split.
      * destruct (run_catch bin url l1 _) as [rr tr3] eqn:Hc.
        unfold run_catch, newSfError in Hc. cbn in Hc. injection Hc as <- _.
        cbn. discriminate.
      * intros (r' & info' & Hr & Hi & _). injection Hr as <-.
        rewrite Hinfo in Hi. discriminate.
  - split.
    + destruct (run_catch bin url l1 e) as [rr tr3] eqn:Hc. cbn [fst].
      unfold run_catch in Hc.
      destruct e as [msg name [[id|]|]|name msg|msg code ex];
        try destruct (String.eqb name "ScratchOrgInfoTimeoutError");
        injection Hc as <- _; discriminate.
    + intros (r' & info' & Hr & _). discriminate.
Qed.

Lemma run_resolves_iff_witness :
  hub <> "" /\
  fst (run true (Some hub) (Ok tt) "sf"
         {| emitted := []; settled := Ok fullResult |}) =
    Ok {| resp_username := Some "test-user@example.com";
          resp_scratchOrgInfo := sampleInfo;
          resp_authFields := Some (Some "00D000000000001");
          resp_warnings := [];
          resp_orgId := Some "00D000000000001" |}.
Proof.
  assert (Hhub : hub <> "") by discriminate.
  split; [exact Hhub|].
  apply (proj2 (run_resolves_iff true hub "sf"
                  {| emitted := []; settled := Ok fullResult |} _ Hhub)).
  exists fullResult, sampleInfo. repeat split.
Defined.

(** X17.  In synchronous mode, once the attempt has started, the status
    view is rerendered once for every lifecycle event, in the order of
    emission and each time with that event; when an error reaches the
    [catch] block there is one more rerender, with the most recent event
    and that error.  No event is skipped or merged with another. *)
Theorem every_event_is_rendered_in_order
    (url bin : string) (call : CreationCall) (Hurl : url <> "") :
  rerendered (snd (run false (Some url) (Ok tt) bin call)) =
    map (fun d => StatusNode (frameOf url d)) (emitted call) ++
    match caught call with
    | Some e =>
        [StatusNode {| data := lastSeen (emitted call) None;
                       baseUrl := url; error := Some e |}]
    | None => []
    end.
Proof.
  rewrite (run_started false url bin call Hurl).
  cbn [startRendering]. rewrite awaitCreate_sync.
  destruct (deliver_keeps_instances url (emitted call) (trackerStart url))
    as (Ha & Hs & _).
  destruct (deliver_tracker url (emitted call) (trackerStart url) eq_refl)
    as (Hr & _).
  pose proof (deliver_lastSeen url (emitted call) (trackerStart url)) as Hlast.
  destruct (deliver url (emitted call) (trackerStart url)) as [l1 tr1].
  cbn [fst snd] in *. cbn in Ha, Hs, Hlast.
  unfold caught, run_try, run_catch. rewrite Ha, Hs, Hlast.
  settle call; cbn -[app lastSeen rerendered];
    rewrite !rerendered_app, Hr; reflexivity.
Qed.

Lemma every_event_is_rendered_in_order_witness :
  hub <> "" /\
  rerendered
    (snd (run false (Some hub) (Ok tt) "sf"
            {| emitted := [atStage "prepare request"; atStage "send request"];
               settled := Err (timeoutOf "2SR000000000001") |})) =
    [StatusNode (frameOf hub (atStage "prepare request"));
     StatusNode (frameOf hub (atStage "send request"));
     StatusNode {| data := Some (atStage "send request"); baseUrl := hub;
                   error := Some (timeoutOf "2SR000000000001") |}].
Proof.
  assert (Hhub : hub <> "") by discriminate.
  split; [exact Hhub|].
  exact (every_event_is_rendered_in_order hub "sf"
           {| emitted := [atStage "prepare request"; atStage "send request"];
              settled := Err (timeoutOf "2SR000000000001") |} Hhub).
Defined.

(** X18.  Under [--async] the lifecycle events play no part: two creation
    calls that settle alike make [run] end alike and do exactly the same
    things, whatever events each of them published. *)
Theorem async_ignores_lifecycle_events
    (instance : option string) (request : result jsError unit) (bin : string)
    (evs1 evs2 : list ScratchOrgLifecycleEvent)
    (s : result jsError ScratchOrgCreateResult) :
  run true instance request bin {| emitted := evs1; settled := s |} =
  run true instance request bin {| emitted := evs2; settled := s |}.
Proof. reflexivity. Qed.

Lemma messageLast_spec :
  forall (tr : list uiEvent),
    messageLast tr = true ->
    filter isMessage tr = [] \/
    exists pre m,
      tr = pre ++ [m] /\ isMessage m = true /\ filter isMessage pre = [].
Proof.
  induction tr as [|e tr IH]; intros H; [left; reflexivity|].
  destruct tr as [|e' tr].
  - destruct (isMessage e) eqn:He.
    + right. exists [], e. auto.
    + left. cbn. rewrite He. reflexivity.
  - cbn [messageLast] in H. apply andb_true_iff in H. destruct H as [He H].
    apply negb_true_iff in He.
    destruct (IH H) as [Hn | (pre & m & Htr & Hm & Hpre)].
    + left. cbn [filter]. rewrite He. exact Hn.
    + right. exists (e :: pre), m. rewrite Htr. split; [reflexivity|].
      split; [exact Hm|]. cbn [filter]. rewrite He. exact Hpre.
Qed.

Lemma messageLast_after_quiet :
  forall (a b : list uiEvent),
    filter isMessage a = [] -> messageLast (a ++ b) = messageLast b.
Proof.
  induction a as [|e a IH]; intros b Ha; [reflexivity|].
  cbn [filter] in Ha. destruct (isMessage e) eqn:He; [discriminate|].
  specialize (IH b Ha). cbn [app messageLast]. rewrite He. cbn [negb andb].
  destruct (a ++ b) as [|x y] eqn:Hab; [|exact IH].
  destruct a; [|discriminate]. cbn in Hab. subst b. reflexivity.
Qed.

(** X19.  [run] prints at most one message with [this.info] or
    [this.logSuccess], and when it prints one this is the last thing it
    does: no surface is rendered, rerendered, cleared or unmounted after
    the message. *)
Theorem message_is_printed_last
    (async : bool) (instance : option string) (request : result jsError unit)
    (bin : string) (call : CreationCall) :
  let tr := snd (run async instance request bin call) in
  filter isMessage tr = [] \/
  exists pre m,
    tr = pre ++ [m] /\ isMessage m = true /\ filter isMessage pre = [].
Proof.
  cbv zeta. apply messageLast_spec. unfold run.
  destruct instance as [url|]; [|reflexivity].
  destruct (String.eqb url ""); [reflexivity|].
  destruct request as [[]|e]; [|reflexivity].
  assert (H0 : filter isMessage (snd (startRendering async url)) = []).
  { destruct async; reflexivity. }
  assert (Hl0 : asyncInstance (fst (startRendering async url)) =
                  (if async then Some AsyncInstance else None) /\
                statusInstance (fst (startRendering async url)) =
                  (if async then None else Some StatusInstance)).
  { destruct async; split; reflexivity. }
  destruct (startRendering async url) as [l0 tr0]. cbn [fst snd] in *.
  assert (H1 : filter isMessage (snd (awaitCreate url call l0)) = [] /\
               asyncInstance (fst (awaitCreate url call l0)) = asyncInstance l0 /\
               statusInstance (fst (awaitCreate url call l0)) = statusInstance l0).
  { unfold awaitCreate. destruct (listening l0).
    - split; [apply deliver_no_message|].
      destruct (deliver_keeps_instances url (emitted call) l0) as (Ha & Hs & _).
      auto.
    - auto. }
  destruct (awaitCreate url call l0) as [l1 tr1]. cbn [fst snd] in *.
  destruct H1 as (H1 & Ha & Hs). destruct Hl0 as (Ha0 & Hs0).
  rewrite Ha0 in Ha. rewrite Hs0 in Hs.
  unfold run_try, run_catch. rewrite Ha, Hs.
  destruct async; settle call; cbn -[app messageLast];
    rewrite (messageLast_after_quiet _ _ H0), (messageLast_after_quiet _ _ H1);
    reflexivity.
Qed.

(** X20.  The creation call rejects with an [SfError] named
    [ScratchOrgInfoTimeoutError] that carries no data: reading the request
    identifier throws, so [run] rejects with a [TypeError], prints no
    resume message and does not reach [this.error]; the surfaces have been
    torn down before that. *)
Theorem timeout_without_data_is_a_type_error
    (async : bool) (url bin msg : string)
    (evs : list ScratchOrgLifecycleEvent) (Hurl : url <> "") :
  let out := run async (Some url) (Ok tt) bin
               {| emitted := evs;
                  settled := Err (SfError msg "ScratchOrgInfoTimeoutError" None) |} in
  (exists m, fst out = Err (OtherError "TypeError" m)) /\
  filter isMessage (snd out) = [] /\
  unmounts (if async then AsyncInstance else StatusInstance) (snd out) =
    (if async then 1 else S (doneCount evs)).
Proof.
  cbv zeta. rewrite (run_started async url bin _ Hurl).
  destruct async.
  - cbn. split; [eexists; reflexivity|]. split; reflexivity.
  - cbn [startRendering]. rewrite awaitCreate_sync. cbn [emitted settled].
    destruct (deliver_keeps_instances url evs (trackerStart url)) as (Ha & Hs & _).
    destruct (deliver_tracker url evs (trackerStart url) eq_refl)
      as (_ & Hu & _).
    pose proof (deliver_no_message url evs (trackerStart url)) as Hm.
    destruct (deliver url evs (trackerStart url)) as [l1 tr1].
    cbn [fst snd] in *. cbn in Ha, Hs.
    unfold run_try, run_catch. rewrite Ha, Hs.
    cbn -[app unmounts isMessage].
    split; [eexists; reflexivity|].
    rewrite !filter_app, !unmounts_app, Hm, Hu. cbn. split; [reflexivity|lia].
Qed.

Lemma timeout_without_data_is_a_type_error_witness :
  hub <> "" /\
  exists m,
    fst (run false (Some hub) (Ok tt) "sf"
           {| emitted := [atStage "prepare request"];
              settled := Err (SfError "timed out" "ScratchOrgInfoTimeoutError" None) |}) =
      Err (OtherError "TypeError" m).
Proof.
  assert (Hhub : hub <> "") by discriminate.
  split; [exact Hhub|].
  pose proof (timeout_without_data_is_a_type_error false hub "sf" "timed out"
                [atStage "prepare request"] Hhub) as H.
  cbv zeta in H. exact (proj1 H).
Defined.

(** X21.  In synchronous mode, when the creation call fails before any
    lifecycle event was published, nothing that [run] hands to the status
    view shows anything: [Status] returns nothing for the first render and
    for the rerender that carries the error, so the error is not displayed
    by the view. *)
Theorem error_before_first_event_is_not_displayed
    (stages : list string) (url bin : string)
    (s : result jsError ScratchOrgCreateResult) (e : jsError)
    (Hurl : url <> "")
    (He : caught {| emitted := []; settled := s |} = Some e) :
  let tr := snd (run false (Some url) (Ok tt) bin {| emitted := []; settled := s |}) in
  drawn tr =
    [StatusNode {| data := None; baseUrl := url; error := None |};
     StatusNode {| data := None; baseUrl := url; error := Some e |}] /\
  forallb (showsNothing stages) (drawn tr) = true.
Proof.
  cbv zeta. rewrite (run_started false url bin _ Hurl).
  unfold caught in He. cbn [settled] in He.
  cbn [startRendering awaitCreate listening emitted deliver settled].
  unfold run_try, run_catch.
  destruct s as [res|[msg name [[id|]|]|name msg|msg code ex]];
    [destruct (r_scratchOrgInfo res); [discriminate|] | | | | | ];
    injection He as <-; cbn;
    try destruct (String.eqb name "ScratchOrgInfoTimeoutError");
    cbn; split; reflexivity.
Qed.

Lemma error_before_first_event_is_not_displayed_witness :
  hub <> "" /\
  caught {| emitted := []; settled := Err (OtherError "Error" "socket hang up") |} =
    Some (OtherError "Error" "socket hang up") /\
  forallb (showsNothing exampleStages)
    (drawn (snd (run false (Some hub) (Ok tt) "sf"
                   {| emitted := [];
                      settled := Err (OtherError "Error" "socket hang up") |}))) = true.
Proof.
  assert (Hhub : hub <> "") by discriminate.
  split; [exact Hhub|]. split; [reflexivity|].
  pose proof (error_before_first_event_is_not_displayed exampleStages hub "sf"
                (Err (OtherError "Error" "socket hang up"))
                (OtherError "Error" "socket hang up") Hhub eq_refl) as H.
  cbv zeta in H. exact (proj2 H).
Defined.

End ScratchProofs.
